(** * flask_mongoengine/connection.py: connection registry and settings resolution

    A shallow embedding of [connection.py] and the properties of its
    specification.

    - Python values are the inductive [value]; a [dict] is an association
      list in insertion order (the order [dict.items()] yields), with the
      operations of a Python dictionary written out.
    - The module globals [_connection_settings], [_connections], [_tmpdir],
      [_process] and [_app_instance] are the fields of [state]; a function of
      the module is a computation [M A] that threads the state and may raise.
      A raised exception keeps the state reached so far, as in Python.
    - What the module calls outside itself (mongoengine, pymongo, mongomock,
      flask, the operating system) is a [World]: each call is answered from
      the history of calls so far and recorded in the [trace].

    Modelling boundaries: strings are byte strings and [str.lower] acts on
    [A-Z]; dictionary keys of configuration mappings are [str]; floats and
    tuples are not values of the model. A call into a library returns or
    raises; what the library itself may write into the two dictionaries it
    was handed by [set_global_attributes] is not modelled. The properties
    are proved for all association lists, those with repeated keys (which no
    Python dictionary has) included. *)

From Stdlib Require Import String Ascii List ZArith Bool Arith Lia DecimalString.
Import ListNotations.
Local Open Scope string_scope.
Local Open Scope list_scope.

(* ================================================================== *)
(** * Python values and dictionaries *)
(* ================================================================== *)

#[local] Set Warnings "-register-all".

(** The hashable values: what can be an alias, a flag or a port. *)
Inductive atom : Type :=
| ANone
| ABool (b : bool)
| AInt (z : Z)
| AStr (s : string)
| AExt (name : string).     (* an object owned by an external library *)

Inductive value : Type :=
| VAtom (a : atom)
| VList (l : list value)
| VDict (d : list (string * value)).

Abbreviation VNone := (VAtom ANone).
Abbreviation VBool b := (VAtom (ABool b)).
Abbreviation VInt z := (VAtom (AInt z)).
Abbreviation VStr s := (VAtom (AStr s)).
Abbreviation VExt n := (VAtom (AExt n)).

(** A dictionary with [str] keys. *)
Definition dict : Type := list (string * value).

(** Truth value of a Python object ([bool(v)]). *)
Definition truthy (v : value) : bool :=
  match v with
  | VNone => false
  | VBool b => b
  | VInt z => negb (z =? 0)%Z
  | VStr s => negb (s =? EmptyString)
  | VExt _ => true
  | VList l => match l with [] => false | _ => true end
  | VDict d => match d with [] => false | _ => true end
  end.

(** [str(a)], as ["%s" % a] prints it. *)
Definition atom_str (a : atom) : string :=
  match a with
  | ANone => "None"
  | ABool true => "True"
  | ABool false => "False"
  | AInt z => NilZero.string_of_int (Z.to_int z)
  | AStr s => s
  | AExt name => name
  end.

(** Dictionary keys: hashable values up to Python's [==] ([True == 1]). *)
Inductive key : Type :=
| KNone
| KNum (z : Z)
| KStr (s : string)
| KExt (name : string).

Definition atom_key (a : atom) : key :=
  match a with
  | ANone => KNone
  | ABool b => KNum (if b then 1 else 0)
  | AInt z => KNum z
  | AStr s => KStr s
  | AExt name => KExt name
  end.

Definition key_eqb (k1 k2 : key) : bool :=
  match k1, k2 with
  | KNone, KNone => true
  | KNum a, KNum b => (a =? b)%Z
  | KStr a, KStr b => (a =? b)%string
  | KExt a, KExt b => (a =? b)%string
  | _, _ => false
  end.

Section Dict.
Context {K V : Type}.
Variable eqb : K -> K -> bool.

(** [d.get(k)] *)
Fixpoint dict_get (k : K) (d : list (K * V)) : option V :=
  match d with
  | [] => None
  | (k', v) :: rest => if eqb k k' then Some v else dict_get k rest
  end.

(** [k in d] *)
Definition dict_mem (k : K) (d : list (K * V)) : bool :=
  match dict_get k d with Some _ => true | None => false end.

(** [d[k] = v]: an existing key keeps its position, a new key goes last. *)
Fixpoint dict_set (k : K) (v : V) (d : list (K * V)) : list (K * V) :=
  match d with
  | [] => [(k, v)]
  | (k', v') :: rest =>
      if eqb k k' then (k', v) :: rest else (k', v') :: dict_set k v rest
  end.

(** [del d[k]] / [d.pop(k, None)] as far as the dictionary is concerned. *)
Definition dict_del (k : K) (d : list (K * V)) : list (K * V) :=
  filter (fun kv => negb (eqb k (fst kv))) d.

(** [d.get(k, default)] *)
Definition dict_get_default (k : K) (default : V) (d : list (K * V)) : V :=
  match dict_get k d with Some v => v | None => default end.

Definition keys (d : list (K * V)) : list K := map fst d.
End Dict.

Definition sget := @dict_get string value String.eqb.
Definition smem := @dict_mem string value String.eqb.
Definition sset := @dict_set string value String.eqb.
Definition sdel := @dict_del string value String.eqb.
Definition sget_default := @dict_get_default string value String.eqb.

(* ================================================================== *)
(** * Strings *)
(* ================================================================== *)

(** [c.lower()] on one character. *)
Definition lower_ascii (c : ascii) : ascii :=
  let n := nat_of_ascii c in
  if ((65 <=? n) && (n <=? 90))%nat then ascii_of_nat (n + 32) else c.

(** [s.lower()] *)
Fixpoint lower (s : string) : string :=
  match s with
  | EmptyString => EmptyString
  | String c s' => String (lower_ascii c) (lower s')
  end.

(** [s[n:]] *)
Fixpoint drop (n : nat) (s : string) : string :=
  match n, s with
  | O, _ => s
  | S n', String _ s' => drop n' s'
  | S _, EmptyString => EmptyString
  end.

(** [s.startswith(p)] *)
Definition startswith (s p : string) : bool := String.prefix p s.

(** [s.replace(old, new, 1)] for a non-empty [old]. *)
Fixpoint replace_first (old new s : string) : string :=
  if String.prefix old s then (new ++ drop (String.length old) s)%string
  else match s with
       | EmptyString => EmptyString
       | String c s' => String c (replace_first old new s')
       end.

(* ================================================================== *)
(** * Settings resolution *)
(* ================================================================== *)

Definition DEFAULT_CONNECTION_NAME : string := "default-mongodb-connection".

(** Modelled from the spec: [pymongo.ReadPreference.PRIMARY], a constant of
    the client library (the default of the descriptor's [read_preference]). *)
Definition PRIMARY : value := VExt "ReadPreference.PRIMARY".

(** [if settings_prefix:] *)
Definition prefix_given (settings_prefix : option string) : option string :=
  match settings_prefix with
  | Some (String c p) => Some (String c p)
  | _ => None
  end.

(** One round of [for k, v in settings.items()]. *)
Definition resolve_item (settings_prefix : option string)
    (resolved_settings : dict) (kv : string * value) : dict :=
  let (k, v) := kv in
  match prefix_given settings_prefix with
  | Some p =>
      if startswith k p
      then sset (lower (drop (String.length p) k)) v resolved_settings
      else resolved_settings
  | None => sset (lower k) v resolved_settings
  end.

(** The loop of [_resolve_settings] over a non-empty mapping. *)
Definition resolve_loop (settings_prefix : option string) (items : dict) : dict :=
  fold_left (resolve_item settings_prefix) items [].

(** ["db"] becomes ["name"], or ["name"] is set to ["test"]. *)
Definition resolve_name (r : dict) : dict :=
  match sget "db" r with
  | Some db => sset "name" db (sdel "db" r)
  | None => sset "name" (VStr "test") r
  end.

(** [r[k] = r.get(k, default)] *)
Definition set_default (k : string) (default : value) (r : dict) : dict :=
  sset k (sget_default k default r) r.

Definition resolve_defaults (r : dict) : dict :=
  let r := set_default "alias" (VStr DEFAULT_CONNECTION_NAME) r in
  let r := set_default "host" (VStr "localhost") r in
  let r := set_default "port" (VInt 27017) r in
  let r := set_default "username" VNone r in
  set_default "read_preference" PRIMARY r.

Definition resolve_replicaset (r : dict) : dict :=
  match sget "replicaset" r with
  | Some rs => sset "replicaSet" rs (sdel "replicaset" r)
  | None => r
  end.

Definition resolve_password (remove_pass : bool) (r : dict) : dict :=
  if remove_pass then sdel "password" r else r.

(** What [_resolve_settings] does to the items of a non-empty mapping. *)
Definition resolve_dict (settings_prefix : option string) (remove_pass : bool)
    (items : dict) : dict :=
  resolve_password remove_pass
    (resolve_replicaset
       (resolve_defaults
          (resolve_name (resolve_loop settings_prefix items)))).

Definition _resolve_settings (settings : value)
    (settings_prefix : option string) (remove_pass : bool) : value :=
  match settings with
  | VDict (kv :: items) =>
      VDict (resolve_dict settings_prefix remove_pass (kv :: items))
  | _ => settings     (* not settings or not isinstance(settings, dict) *)
  end.

Definition fetch_connection_settings (config : dict) (remove_pass : bool) : value :=
  match sget "MONGODB_SETTINGS" config with
  | Some (VList settings) =>
      VList (map (fun setting => _resolve_settings setting None remove_pass) settings)
  | Some settings => _resolve_settings settings None remove_pass
  | None => _resolve_settings (VDict config) (Some "MONGODB_") remove_pass
  end.

(** The descriptor that holds nothing but the injected defaults. *)
Definition injected_defaults : dict :=
  [ ("name", VStr "test");
    ("alias", VStr DEFAULT_CONNECTION_NAME);
    ("host", VStr "localhost");
    ("port", VInt 27017);
    ("username", VNone);
    ("read_preference", PRIMARY) ].

(* ================================================================== *)
(** * Exceptions, the external world, the module state *)
(* ================================================================== *)

Inductive exn : Type :=
| InvalidSettingsError (msg : string)
| ConnectionError (msg : string)            (* [class ConnectionError] of this module *)
| InvalidURI (msg : string)                 (* [pymongo.errors.InvalidURI] *)
| RuntimeError (msg : string)
| KeyError (k : string)
| TypeError (msg : string)
| AttributeError (msg : string)
| MongoEngineConnectionError (msg : string) (* [mongoengine.ConnectionError] *)
| ConnectionFailure (msg : string)          (* [pymongo.errors.ConnectionFailure] *)
| Exception (msg : string)
| ExternalError (cls msg : string).         (* any other exception of an external call *)

Definition squote : string := String (ascii_of_nat 39) EmptyString.
Definition dquote : string := String (ascii_of_nat 34) EmptyString.
Definition newline : string := String (ascii_of_nat 10) EmptyString.

(** [str(e)] *)
Definition exn_str (e : exn) : string :=
  match e with
  | KeyError k => squote ++ k ++ squote
  | InvalidSettingsError msg | ConnectionError msg | InvalidURI msg
  | RuntimeError msg | TypeError msg | AttributeError msg
  | MongoEngineConnectionError msg | ConnectionFailure msg
  | Exception msg | ExternalError _ msg => msg
  end.

Definition client : Type := nat.
Definition process : Type := nat.

(** A database handle of the client library; [db_client] is its [.client]. *)
Record database : Type := { db_id : nat; db_client : option client }.

(** What [get_connection] returns: [None], a client, or a database handle. *)
Inductive handle : Type :=
| HNone
| HClient (c : client)
| HDatabase (db : database).

(** Calls that leave the module, newest first in the [trace]. *)
Inductive event : Type :=
| EvGetDb (alias : atom)
| EvConnect (db_name : value) (kwargs : dict)
| EvMockClient (kwargs : dict)
| EvMongoClient (host : string) (port : value)
| EvClientClose (c : client)
| EvDbClose (db : database)
| EvTerminate (p : process)
| EvWait (p : process)
| EvRmtree (path : value)
| EvRemove (path : string)
| EvExec (cmd : string)
| EvMkdtemp
| EvPrint (fmt : string) (arg : value)
| EvPopen (port : value) (dbpath : value)
| EvAtexit (preserved : value)
| EvSleep (milliseconds : nat).

(** The answers of the external collaborators, given the calls made so far. *)
Record World : Type := {
  (** [flask.current_app.config]; [None] outside an application context *)
  current_app : option dict;
  (** [mongoengine.VERSION < (0, 10, 6)] *)
  mongoengine_VERSION_lt_0_10_6 : bool;
  (** whether [import mongomock] succeeds *)
  mongomock_importable : bool;
  (** [mongoengine.connect] called with [db_name] and [conn_settings] as keywords *)
  mongoengine_connect : list event -> value -> dict -> client + exn;
  (** [mongoengine.connection.get_db(alias)] *)
  mongoengine_get_db : list event -> atom -> database + exn;
  (** [mongomock.MongoClient] called with [conn_settings] as keywords *)
  mongomock_MongoClient : list event -> dict -> client + exn;
  (** [pymongo.MongoClient(host, port)] *)
  pymongo_MongoClient : list event -> string -> value -> client + exn;
  (** [subprocess.Popen(cmd, shell=True, ...)] run to its end:
      return code, standard output, standard error *)
  run_command : list event -> string -> (Z * string * string) + exn;
  (** [subprocess.Popen([...])] of the server *)
  spawn : list event -> process;
  tempfile_mkdtemp : list event -> string;
  tempfile_gettempdir : string;
  os_path_exists : list event -> value -> bool;
  os_remove : list event -> string -> option exn
}.

(** [_app_instance]: [current_app], an application object, or [config]. *)
Inductive app_instance : Type :=
| CurrentApp
| AppObject (config : dict)
| AppValue (v : value).

Record state : Type := mkState {
  _connection_settings : list (key * dict);
  _connections : list (key * client);
  _tmpdir : value;
  _process : option process;
  _app_instance : app_instance;
  trace : list event
}.

(** The module right after import. *)
Definition initial_state : state :=
  {| _connection_settings := [];
     _connections := [];
     _tmpdir := VNone;
     _process := None;
     _app_instance := CurrentApp;
     trace := [] |}.

Definition set_connection_settings (f : list (key * dict) -> list (key * dict)) (st : state) : state :=
  mkState (f (_connection_settings st)) (_connections st) (_tmpdir st)
          (_process st) (_app_instance st) (trace st).

Definition set_connections (f : list (key * client) -> list (key * client)) (st : state) : state :=
  mkState (_connection_settings st) (f (_connections st)) (_tmpdir st)
          (_process st) (_app_instance st) (trace st).

Definition set_tmpdir (v : value) (st : state) : state :=
  mkState (_connection_settings st) (_connections st) v
          (_process st) (_app_instance st) (trace st).

Definition set_process (p : option process) (st : state) : state :=
  mkState (_connection_settings st) (_connections st) (_tmpdir st)
          p (_app_instance st) (trace st).

Definition set_app_instance (a : app_instance) (st : state) : state :=
  mkState (_connection_settings st) (_connections st) (_tmpdir st)
          (_process st) a (trace st).

Definition add_event (e : event) (st : state) : state :=
  mkState (_connection_settings st) (_connections st) (_tmpdir st)
          (_process st) (_app_instance st) (e :: trace st).

(* ================================================================== *)
(** * The monad of the module's functions *)
(* ================================================================== *)

Inductive result (A : Type) : Type :=
| Ok (a : A)
| Raise (e : exn).
Arguments Ok {A} a.
Arguments Raise {A} e.

Definition M (A : Type) : Type := state -> result A * state.

Definition ret {A} (a : A) : M A := fun st => (Ok a, st).

Definition raise {A} (e : exn) : M A := fun st => (Raise e, st).

Definition bind {A B} (m : M A) (f : A -> M B) : M B :=
  fun st =>
    match m st with
    | (Ok a, st') => f a st'
    | (Raise e, st') => (Raise e, st')
    end.

(** [try: m  except ...: handler e] *)
Definition try_catch {A} (m : M A) (handler : exn -> M A) : M A :=
  fun st =>
    match m st with
    | (Ok a, st') => (Ok a, st')
    | (Raise e, st') => handler e st'
    end.

Definition gets {A} (f : state -> A) : M A := fun st => (Ok (f st), st).

Definition modify (f : state -> state) : M unit := fun st => (Ok tt, f st).

(** An external call that cannot fail. *)
Definition log (e : event) : M unit := modify (add_event e).

(** An external call answered by the world. *)
Definition call {A} (answer : list event -> A + exn) (e : event) : M A :=
  fun st =>
    match answer (trace st) with
    | inl a => (Ok a, add_event e st)
    | inr x => (Raise x, add_event e st)
    end.

Declare Scope monad_scope.
Delimit Scope monad_scope with monad.
Notation "x <- m ;; k" := (bind m (fun x => k))
  (at level 61, m at next level, right associativity) : monad_scope.
Notation "m ;; k" := (bind m (fun _ => k))
  (at level 61, right associativity) : monad_scope.
Local Open Scope monad_scope.

(** Using a value as a dictionary key. *)
Definition hash_key (v : value) : option key :=
  match v with
  | VAtom a => Some (atom_key a)
  | _ => None
  end.

Definition hash (v : value) : M (atom * key) :=
  match v with
  | VAtom a => ret (a, atom_key a)
  | _ => raise (TypeError "unhashable type")
  end.

(** [d[k]] on a [str]-keyed dictionary. *)
Definition getitem (k : string) (d : dict) : M value :=
  match sget k d with
  | Some v => ret v
  | None => raise (KeyError k)
  end.

(** [v.startswith(p)] *)
Definition value_startswith (v : value) (p : string) : M bool :=
  match v with
  | VStr s => ret (startswith s p)
  | _ => raise (AttributeError "object has no attribute 'startswith'")
  end.

(** [alias == DEFAULT_CONNECTION_NAME] *)
Definition is_default_alias (a : atom) : bool :=
  match a with
  | AStr s => (s =? DEFAULT_CONNECTION_NAME)%string
  | _ => false
  end.

(** [port == 27017] *)
Definition is_27017 (port : value) : bool :=
  match port with
  | VInt z => (z =? 27017)%Z
  | _ => false
  end.

(* ================================================================== *)
(** * The functions of the module *)
(* ================================================================== *)

(** [connection_class], when it is not [None]. *)
Inductive client_class : Type := MongomockClient.

(** How the dispatch of [get_connection] ends: by [return], or by going on
    to the sharing pass with [connection_class] and [conn_settings]. *)
Inductive dispatch : Type :=
| Returned (h : handle)
| Proceed (connection_class : option client_class) (conn_settings : dict).

(** What [create_connection] returns. *)
Inductive created : Type :=
| Single (h : handle)
| Multi (connections : list (key * handle)).

Definition msg_booleans : string :=
  "`TESTING`, `TEMP_DB`, and `PRESERVE_TEMP_DB` must be boolean values".
Definition msg_mongomock : string :=
  "`MongoMock` connection is only required for `unittest`.To enable this set `TESTING` to true`.".
Definition msg_testing : string :=
  "`TESTING` and/or `TEMP_DB` can be used only when `TESTING` is set to true.".
Definition msg_no_default : string :=
  "You have not defined a default connection".
Definition msg_undefined (alias : atom) : string :=
  "Connection with alias " ++ dquote ++ atom_str alias ++ dquote
    ++ " has not been defined".
Definition msg_cannot_connect (alias : atom) (e : exn) : string :=
  "Cannot connect to database " ++ atom_str alias ++ " :" ++ newline ++ exn_str e.
Definition msg_need_mongod : string :=
  "You need `MongoDB` service installed on localhost to create a TEMP_DB instance.".
Definition msg_need_mongomock : string :=
  "You need mongomock installed to mock MongoEngine.".
Definition msg_test_instance : string :=
  "Cannot connect to the mongodb test instance".

(** The descriptor copy of the sharing pass: [name], [username] and
    [password] popped. *)
Definition stripped (settings : dict) : dict :=
  sdel "password" (sdel "username" (sdel "name" settings)).

Section Connection.
Variable W : World.

(** [set_global_attributes] hands the two dictionaries and [disconnect] to
    [mongoengine.connection]; nothing of this module changes. *)
Definition set_global_attributes : M unit := ret tt.

Definition _sys_exec (cmd : string) : M string :=
  r <- call (fun tr => run_command W tr cmd) (EvExec cmd) ;;
  let '(returncode, out, err) := r in
  if (returncode =? 0)%Z then ret out else raise (Exception err).

Definition __get_app_config (k : string) : M value :=
  app <- gets _app_instance ;;
  match app with
  | AppValue (VDict d) => ret (sget_default k (VBool false) d)
  | AppValue _ => raise (AttributeError "object has no attribute 'config'")
  | AppObject config => ret (sget_default k (VBool false) config)
  | CurrentApp =>
      match current_app W with
      | Some config => ret (sget_default k (VBool false) config)
      | None => raise (RuntimeError "Working outside of application context.")
      end
  end.

(** Python reads [not is_test and temp_db or preserved] as
    [((not is_test) and temp_db) or preserved]. *)
Definition _validate_settings (is_test temp_db preserved conn_host : value) : M unit :=
  match is_test, temp_db, preserved with
  | VBool is_test, VBool temp_db, VBool preserved =>
      mock <- (if negb is_test
               then value_startswith conn_host "mongomock://"
               else ret false) ;;
      if negb is_test && mock then raise (InvalidURI msg_mongomock)
      else if (negb is_test && temp_db) || preserved
           then raise (InvalidSettingsError msg_testing)
           else ret tt
  | _, _, _ => raise (InvalidSettingsError msg_booleans)
  end.

(** The readiness wait: [for i in range(attempts)], [None] when the loop
    runs out (its [else] clause). *)
Fixpoint wait_ready (attempts : nat) (port : value) : M (option client) :=
  match attempts with
  | O => ret None
  | S n =>
      log (EvSleep 100) ;;
      r <- try_catch
             (c <- call (fun tr => pymongo_MongoClient W tr "localhost" port)
                        (EvMongoClient "localhost" port) ;;
              ret (Some c))
             (fun e => match e with
                       | ConnectionFailure _ => ret None     (* continue *)
                       | _ => raise e
                       end) ;;
      match r with
      | Some c => ret (Some c)                               (* break *)
      | None => wait_ready n port
      end
  end.

Definition _register_test_connection (port db_alias preserved : value) : M handle :=
  found <- try_catch
             (out <- _sys_exec "mongod --version" ;;
              ret (negb (out =? EmptyString)%string))
             (fun _ => raise (RuntimeError msg_need_mongod)) ;;
  if found then
    let port := if negb (truthy port) || is_27017 port then VInt 27111 else port in
    config <- match current_app W with
              | Some config => ret config
              | None => raise (RuntimeError "Working outside of application context.")
              end ;;
    tmp <- gets (fun st => tempfile_mkdtemp W (trace st)) ;;
    log EvMkdtemp ;;
    let tmpdir := sget_default "TEMP_DB_LOC" (VStr tmp) config in
    modify (set_tmpdir tmpdir) ;;
    log (EvPrint "@@ TEMP_DB_LOC  = %s" tmpdir) ;;
    log (EvPrint "@@ TEMP_DB port = %s" port) ;;
    log (EvPrint "@@ TEMP_DB host = localhost" VNone) ;;
    ak <- hash db_alias ;;
    conns <- gets _connections ;;
    match dict_get key_eqb (snd ak) conns with
    | Some _conn => ret (HClient _conn)
    | None =>
        p <- gets (fun st => spawn W (trace st)) ;;
        log (EvPopen port tmpdir) ;;
        modify (set_process (Some p)) ;;
        log (EvAtexit preserved) ;;
        r <- wait_ready 3 port ;;
        match r with
        | None => raise (MongoEngineConnectionError msg_test_instance)
        | Some _conn =>
            modify (set_connections (dict_set key_eqb (snd ak) _conn)) ;;
            ret (HClient _conn)
        end
    end
  else ret HNone.

Definition get_db_handle (alias : atom) : M handle :=
  db <- call (fun tr => mongoengine_get_db W tr alias) (EvGetDb alias) ;;
  ret (HDatabase db).

(** [_connections[alias] = mongoengine.connect(db_name, ...)] *)
Definition connect (alias : key) (db_name : value) (conn_settings : dict) : M unit :=
  c <- call (fun tr => mongoengine_connect W tr db_name conn_settings)
            (EvConnect db_name conn_settings) ;;
  modify (set_connections (dict_set key_eqb alias c)).

(** Lines 102-147: from the descriptor lookup to the first client. *)
Definition establish (alias : atom * key) : M dispatch :=
  settings <- gets _connection_settings ;;
  match dict_get key_eqb (snd alias) settings with
  | None =>
      raise (ConnectionError (if is_default_alias (fst alias)
                              then msg_no_default
                              else msg_undefined (fst alias)))
  | Some conn_settings =>
      conn_host <- getitem "host" conn_settings ;;
      db_name <- getitem "name" conn_settings ;;
      let conn_settings := sdel "name" conn_settings in
      is_test <- __get_app_config "TESTING" ;;
      temp_db <- __get_app_config "TEMP_DB" ;;
      preserved <- __get_app_config "PRESERVE_TEMP_DB" ;;
      _validate_settings is_test temp_db preserved conn_host ;;
      if truthy is_test then
        if truthy temp_db then
          db_alias <- getitem "alias" conn_settings ;;
          port <- getitem "port" conn_settings ;;
          h <- _register_test_connection port db_alias preserved ;;
          ret (Returned h)
        else
          mock <- value_startswith conn_host "mongomock://" ;;
          if mock && mongoengine_VERSION_lt_0_10_6 W then
            if mongomock_importable W then
              match conn_host with
              | VStr host =>
                  ret (Proceed (Some MongomockClient)
                         (sset "host"
                            (VStr (replace_first "mongomock://" "mongodb://" host))
                            conn_settings))
              | _ => raise (AttributeError "object has no attribute 'replace'")
              end
            else raise (RuntimeError msg_need_mongomock)
          else
            connect (snd alias) db_name conn_settings ;;
            ret (Proceed None conn_settings)
      else
        connect (snd alias) db_name conn_settings ;;
        ret (Proceed None conn_settings)
  end.

(** The [for] loop of the sharing pass over the items of
    [_connection_settings]; [connection] is the loop's variable of that
    name, and the result is its value when the loop ends. *)
Fixpoint share_loop (items : list (key * dict)) (alias : key)
    (connection_class : option client_class) (conn_settings : dict)
    (connection : option client) : M (option client) :=
  match items with
  | [] => ret connection
  | (db_alias, settings) :: rest =>
      let connection_settings := stripped settings in
      conns <- gets _connections ;;
      match dict_get key_eqb db_alias conns with
      | Some c => ret (Some c)                               (* break *)
      | None =>
          match connection with
          | Some c => modify (set_connections (dict_set key_eqb alias c))
          | None =>
              match connection_class with
              | Some MongomockClient =>
                  c <- call (fun tr => mongomock_MongoClient W tr conn_settings)
                            (EvMockClient conn_settings) ;;
                  modify (set_connections (dict_set key_eqb alias c))
              | None => ret tt
              end
          end ;;
          share_loop rest alias connection_class conn_settings connection
      end
  end.

(** Lines 149-174: the [try] block. *)
Definition share_connections (alias : atom * key)
    (connection_class : option client_class) (conn_settings : dict) : M unit :=
  try_catch
    (items <- gets _connection_settings ;;
     share_loop items (snd alias) connection_class conn_settings None ;;
     ret tt)
    (fun e => raise (ConnectionError (msg_cannot_connect (fst alias) e))).

(** [get_connection] from line 99 on, that is [get_connection(alias)]
    without [reconnect]; [disconnect] calls it in this form. *)
Definition get_or_connect (alias : value) : M handle :=
  ak <- hash alias ;;
  conns <- gets _connections ;;
  if negb (dict_mem key_eqb (snd ak) conns) then
    d <- establish ak ;;
    match d with
    | Returned h => ret h
    | Proceed connection_class conn_settings =>
        share_connections ak connection_class conn_settings ;;
        get_db_handle (fst ak)
    end
  else get_db_handle (fst ak).

Definition disconnect (alias : value) (preserved : value) : M unit :=
  ak <- hash alias ;;
  conns <- gets _connections ;;
  (if dict_mem key_eqb (snd ak) conns then
     set_global_attributes ;;
     conn <- get_or_connect alias ;;
     match conn with
     | HDatabase db =>
         match db_client db with
         | Some c => log (EvClientClose c)
         | None => log (EvDbClose db)
         end
     | _ => raise (AttributeError "object has no attribute 'client'")
     end ;;
     modify (set_connections (dict_del key_eqb (snd ak)))
   else ret tt) ;;
  proc <- gets _process ;;
  match proc with
  | Some p =>
      log (EvTerminate p) ;;
      log (EvWait p) ;;
      modify (set_process None)
  | None => ret tt
  end ;;
  tmpdir <- gets _tmpdir ;;
  if negb (truthy preserved) && truthy tmpdir then
    let sock_file := "mongodb-27111.sock" in
    dir_exists <- gets (fun st => os_path_exists W (trace st) tmpdir) ;;
    (if dir_exists then log (EvRmtree tmpdir) else ret tt) ;;
    sock_exists <- gets (fun st => os_path_exists W (trace st) (VStr sock_file)) ;;
    if sock_exists then
      let path := (tempfile_gettempdir W ++ "/" ++ sock_file)%string in
      r <- gets (fun st => os_remove W (trace st) path) ;;
      log (EvRemove path) ;;
      match r with
      | Some e => raise e
      | None => ret tt
      end
    else ret tt
  else ret tt.

Definition get_connection (alias : value) (reconnect : bool) : M handle :=
  set_global_attributes ;;
  (if reconnect then
     settings <- gets _connection_settings ;;
     disconnect alias
       (match dict_get key_eqb (KStr "preserve_temp_db") settings with
        | Some d => VDict d
        | None => VBool false
        end)
   else ret tt) ;;
  get_or_connect alias.

Definition get_db (alias : value) (reconnect : bool) : M handle :=
  set_global_attributes ;;
  ak <- hash alias ;;
  get_db_handle (fst ak).

(** The loop of [create_connection] over a list of descriptors. *)
Fixpoint create_all (conn_settings : list value)
    (connections : list (key * handle)) : M (list (key * handle)) :=
  match conn_settings with
  | [] => ret connections
  | conn_setting :: rest =>
      match conn_setting with
      | VDict d =>
          alias <- getitem "alias" d ;;
          ak <- hash alias ;;
          modify (set_connection_settings (dict_set key_eqb (snd ak) d)) ;;
          h <- get_connection alias false ;;
          create_all rest (dict_set key_eqb (snd ak) h connections)
      | _ => raise (TypeError "indices must be integers")
      end
  end.

Definition create_connection (config : value) (app : option dict) : M created :=
  modify (set_app_instance (match app with
                            | Some a => AppObject a
                            | None => AppValue config
                            end)) ;;
  match config with
  | VDict cfg =>
      match fetch_connection_settings cfg false with
      | VList conn_settings =>
          connections <- create_all conn_settings [] ;;
          ret (Multi connections)
      | VDict conn_settings =>
          let alias := sget_default "alias" (VStr DEFAULT_CONNECTION_NAME) conn_settings in
          ak <- hash alias ;;
          modify (set_connection_settings (dict_set key_eqb (snd ak) conn_settings)) ;;
          h <- get_connection alias false ;;
          ret (Single h)
      | VAtom _ => raise (AttributeError "object has no attribute 'get'")
      end
  | _ => raise (InvalidSettingsError "Invalid application configuration")
  end.

End Connection.

(* ================================================================== *)
(** * Shapes of resolved descriptors *)
(* ================================================================== *)

(** Keys that [str.lower] leaves alone. *)
Definition lowkeys (d : dict) : Prop := forall k, In k (keys d) -> lower k = k.

(** What every resolved descriptor looks like before the [replicaSet]
    entry, if any, is appended. *)
Record resolved_base (remove_pass : bool) (d : dict) : Prop := {
  rb_low : lowkeys d;
  rb_nodup : NoDup (keys d);
  rb_db : sget "db" d = None;
  rb_replicaset : sget "replicaset" d = None;
  rb_name : smem "name" d = true;
  rb_alias : smem "alias" d = true;
  rb_host : smem "host" d = true;
  rb_port : smem "port" d = true;
  rb_username : smem "username" d = true;
  rb_read_preference : smem "read_preference" d = true;
  rb_password : remove_pass = true -> sget "password" d = None
}.

Definition resolved_shape (remove_pass : bool) (d : dict) : Prop :=
  exists d0 tail,
    d = d0 ++ tail /\ resolved_base remove_pass d0 /\
    (tail = [] \/ exists rs, tail = [("replicaSet", rs)]).

(** The key under which the loop stores an item, if it keeps the item. *)
Definition resolved_key (settings_prefix : option string) (k : string) : option string :=
  match prefix_given settings_prefix with
  | Some p => if startswith k p then Some (lower (drop (String.length p) k)) else None
  | None => Some (lower k)
  end.

(** A mapping none of whose keys reads ["db"] in lower case. *)
Definition no_db_key (settings : value) : Prop :=
  match settings with
  | VDict items => forall k v, In (k, v) items -> lower k <> "db"
  | _ => True
  end.

(** A resolved value with its ["name"] put back to ["test"]. *)
Definition reset_name (resolved : value) : value :=
  match resolved with
  | VDict (kv :: items) => VDict (sset "name" (VStr "test") (kv :: items))
  | _ => resolved
  end.

(** The keys a resolved descriptor always carries, and the renamed one. *)
Definition injected_keys : list string :=
  ["name"; "alias"; "host"; "port"; "username"; "read_preference"; "replicaSet"].

(** The configuration of property P3 and the descriptor it resolves to. *)
Definition p3_config : dict :=
  [("MONGODB_HOST", VStr "h"); ("MONGODB_PORT", VInt 1234); ("MONGODB_DB", VStr "x")].

Definition p3_descriptor : dict :=
  [("host", VStr "h"); ("port", VInt 1234); ("name", VStr "x");
   ("alias", VStr DEFAULT_CONNECTION_NAME); ("username", VNone);
   ("read_preference", PRIMARY)].

(* ================================================================== *)
(** * Runs of the public operations and the registry invariant *)
(* ================================================================== *)

Inductive operation : Type :=
| CreateConnection (config : value) (app : option dict)
| GetConnection (alias : value) (reconnect : bool)
| Disconnect (alias preserved : value)
| GetDb (alias : value) (reconnect : bool).

(** The state an operation leaves, whether it returns or raises. *)
Definition run (W : World) (op : operation) (st : state) : state :=
  match op with
  | CreateConnection config app => snd (create_connection W config app st)
  | GetConnection alias reconnect => snd (get_connection W alias reconnect st)
  | Disconnect alias preserved => snd (disconnect W alias preserved st)
  | GetDb alias reconnect => snd (get_db W alias reconnect st)
  end.

(** The states the module can be in: it starts as imported and goes on by
    the public operations; provisioning may also be asked for directly, for
    an alias that has its descriptor. *)
Inductive reachable (W : World) : state -> Prop :=
| reachable_initial : reachable W initial_state
| reachable_run op st : reachable W st -> reachable W (run W op st)
| reachable_provision port a preserved st :
    reachable W st ->
    dict_mem key_eqb (atom_key a) (_connection_settings st) = true ->
    reachable W (snd (_register_test_connection W port (VAtom a) preserved st)).

(** Every alias with a client has a descriptor. *)
Definition clients_have_settings
    (settings : list (key * dict)) (conns : list (key * client)) : Prop :=
  forall k, dict_mem key_eqb k conns = true -> dict_mem key_eqb k settings = true.

(** A descriptor that names its alias is registered under that alias. *)
Definition settings_keyed_by_alias (settings : list (key * dict)) : Prop :=
  forall k d v,
    dict_get key_eqb k settings = Some d -> sget "alias" d = Some v ->
    hash_key v = Some k.

Definition registry_ok
    (settings : list (key * dict)) (conns : list (key * client)) : Prop :=
  clients_have_settings settings conns /\ settings_keyed_by_alias settings.

(** [registry_ok], and a client for [db_alias] would have a descriptor. *)
Definition registry_ok_for (db_alias : value)
    (settings : list (key * dict)) (conns : list (key * client)) : Prop :=
  registry_ok settings conns /\
  forall k, hash_key db_alias = Some k -> dict_mem key_eqb k settings = true.

(** A property of the two dictionaries, as a property of the state. *)
Definition on_registry
    (Q : list (key * dict) -> list (key * client) -> Prop) (st : state) : Prop :=
  Q (_connection_settings st) (_connections st).

Definition registry_invariant : state -> Prop := on_registry registry_ok.

(** [m] keeps [P], whether it returns or raises. *)
Definition preserves {A} (P : state -> Prop) (m : M A) : Prop :=
  forall st, P st -> P (snd (m st)).

(* ================================================================== *)
(** * The readiness wait *)
(* ================================================================== *)

(** The calls of [n] rounds of the wait on [port], newest first: each
    attempt to open a client comes right after a sleep of 100 ms. *)
Fixpoint attempts_trace (n : nat) (port : value) : list event :=
  match n with
  | O => []
  | S n' => EvMongoClient "localhost" port :: EvSleep 100 :: attempts_trace n' port
  end.

(** The answer to attempt number [i] (from 0) of a wait that starts with
    history [tr], when the attempts before it have failed. *)
Definition attempt_answer (W : World) (tr : list event) (port : value) (i : nat)
  : client + exn :=
  pymongo_MongoClient W (EvSleep 100 :: attempts_trace i port ++ tr) "localhost" port.

Definition add_events (evs : list event) (st : state) : state :=
  mkState (_connection_settings st) (_connections st) (_tmpdir st)
          (_process st) (_app_instance st) (evs ++ trace st).

(** [port] as [_register_test_connection] uses it. *)
Definition selected_port (port : value) : value :=
  if negb (truthy port) || is_27017 port then VInt 27111 else port.

(** [_tmpdir] as [_register_test_connection] sets it, from history [tr]. *)
Definition temp_db_loc (W : World) (config : dict) (tr : list event) : value :=
  sget_default "TEMP_DB_LOC"
    (VStr (tempfile_mkdtemp W (EvExec "mongod --version" :: tr))) config.

(** The history when the wait starts: the server has been spawned and the
    exit hook registered. *)
Definition spawned_trace (W : World) (config : dict) (port preserved : value)
    (tr : list event) : list event :=
  EvAtexit preserved
    :: EvPopen (selected_port port) (temp_db_loc W config tr)
    :: EvPrint "@@ TEMP_DB host = localhost" VNone
    :: EvPrint "@@ TEMP_DB port = %s" (selected_port port)
    :: EvPrint "@@ TEMP_DB_LOC  = %s" (temp_db_loc W config tr)
    :: EvMkdtemp
    :: EvExec "mongod --version"
    :: tr.

(** The state when the wait starts. *)
Definition spawned_state (W : World) (config : dict) (port preserved : value)
    (st : state) : state :=
  mkState (_connection_settings st) (_connections st)
          (temp_db_loc W config (trace st))
          (Some (spawn W (EvPrint "@@ TEMP_DB host = localhost" VNone
                            :: EvPrint "@@ TEMP_DB port = %s" (selected_port port)
                            :: EvPrint "@@ TEMP_DB_LOC  = %s" (temp_db_loc W config (trace st))
                            :: EvMkdtemp
                            :: EvExec "mongod --version"
                            :: trace st)))
          (_app_instance st)
          (spawned_trace W config port preserved (trace st)).

(* ================================================================== *)
(** * Sample worlds and configurations *)
(* ================================================================== *)

Definition is_connect (e : event) : bool :=
  match e with EvConnect _ _ => true | _ => false end.

Definition is_mock_client (e : event) : bool :=
  match e with EvMockClient _ => true | _ => false end.

(** A world where everything is in place: [mongod] is installed, the server
    answers, and the client library hands out a new client object on every
    [connect]. *)
Definition sample_world : World :=
  {| current_app := Some [];
     mongoengine_VERSION_lt_0_10_6 := false;
     mongomock_importable := false;
     mongoengine_connect := fun tr _ _ => inl (length (filter is_connect tr));
     mongoengine_get_db := fun _ _ => inl {| db_id := 0; db_client := Some 0 |};
     mongomock_MongoClient := fun tr _ => inl (100 + length (filter is_mock_client tr));
     pymongo_MongoClient := fun _ _ _ => inl 7;
     run_command := fun _ _ => inl (0%Z, "db version v3.0.15", EmptyString);
     spawn := fun _ => 0;
     tempfile_mkdtemp := fun _ => "/tmp/tmp8xk2";
     tempfile_gettempdir := "/tmp";
     os_path_exists := fun _ _ => true;
     os_remove := fun _ _ => None |}.

(** What the client library raises when the server cannot be reached. *)
Definition unreachable_error : exn :=
  ExternalError "ServerSelectionTimeoutError" "localhost:27017: Connection refused".

(** The sample world with a database server that cannot be reached. *)
Definition refusing_world : World :=
  {| current_app := Some [];
     mongoengine_VERSION_lt_0_10_6 := false;
     mongomock_importable := false;
     mongoengine_connect := fun _ _ _ => inr unreachable_error;
     mongoengine_get_db := fun _ _ => inl {| db_id := 0; db_client := Some 0 |};
     mongomock_MongoClient := fun tr _ => inl (100 + length (filter is_mock_client tr));
     pymongo_MongoClient := fun _ _ _ => inl 7;
     run_command := fun _ _ => inl (0%Z, "db version v3.0.15", EmptyString);
     spawn := fun _ => 0;
     tempfile_mkdtemp := fun _ => "/tmp/tmp8xk2";
     tempfile_gettempdir := "/tmp";
     os_path_exists := fun _ _ => true;
     os_remove := fun _ _ => None |}.

(** A world with the old [mongoengine] and [mongomock] installed. *)
Definition mock_world : World :=
  {| current_app := Some [];
     mongoengine_VERSION_lt_0_10_6 := true;
     mongomock_importable := true;
     mongoengine_connect := fun tr _ _ => inl (length (filter is_connect tr));
     mongoengine_get_db := fun _ _ => inl {| db_id := 0; db_client := Some 0 |};
     mongomock_MongoClient := fun tr _ => inl (100 + length (filter is_mock_client tr));
     pymongo_MongoClient := fun _ _ _ => inl 7;
     run_command := fun _ _ => inl (0%Z, "db version v3.0.15", EmptyString);
     spawn := fun _ => 0;
     tempfile_mkdtemp := fun _ => "/tmp/tmp8xk2";
     tempfile_gettempdir := "/tmp";
     os_path_exists := fun _ _ => true;
     os_remove := fun _ _ => None |}.

(** Two aliases on one server with the same credentials and different
    database names (the E2E scenario of the specification). *)
Definition settings_a : dict :=
  [("alias", VStr "a"); ("db", VStr "db_a"); ("host", VStr "db.example.org");
   ("port", VInt 27017); ("username", VStr "u"); ("password", VStr "p")].

Definition settings_b : dict :=
  [("alias", VStr "b"); ("db", VStr "db_b"); ("host", VStr "db.example.org");
   ("port", VInt 27017); ("username", VStr "u"); ("password", VStr "p")].

(** The descriptors the two aliases resolve to, passwords kept. *)
Definition descriptor_a : dict := resolve_dict None false settings_a.

Definition descriptor_b : dict := resolve_dict None false settings_b.

Definition two_aliases_config : value :=
  VDict [("MONGODB_SETTINGS", VList [VDict settings_a; VDict settings_b])].

Definition two_mock_aliases_config : value :=
  VDict [("TESTING", VBool true);
         ("MONGODB_SETTINGS",
          VList [VDict (sset "host" (VStr "mongomock://localhost") settings_a);
                 VDict (sset "host" (VStr "mongomock://localhost") settings_b)])].

(** A test configuration that asks for a temporary database. *)
Definition temp_db_config (preserve : bool) : value :=
  VDict [("TESTING", VBool true); ("TEMP_DB", VBool true);
         ("PRESERVE_TEMP_DB", VBool preserve);
         ("MONGODB_HOST", VStr "localhost")].

Definition default_alias : value := VStr DEFAULT_CONNECTION_NAME.

(** The temporary database is up under the default alias, and the
    application then sets [PRESERVE_TEMP_DB]. *)
Definition preserving_state : state :=
  run sample_world (CreateConnection (temp_db_config true) None)
    (run sample_world (CreateConnection (temp_db_config false) None) initial_state).

(* ================================================================== *)
(** * Notions used in the further properties *)
(* ================================================================== *)

(** The name a resolved descriptor gets from the extracted mapping. *)
Definition name_of (extracted : dict) : value :=
  match sget "db" extracted with
  | Some db => db
  | None => VStr "test"
  end.

(** The keys that resolution sets, renames or removes itself. *)
Definition reserved_keys : list string :=
  ["db"; "name"; "alias"; "host"; "port"; "username"; "read_preference";
   "replicaset"; "replicaSet"; "password"].

(** Whether the loop stores the item [kv] under the key [k]. *)
Definition stored_under (settings_prefix : option string) (k : string)
    (kv : string * value) : bool :=
  match resolved_key settings_prefix (fst kv) with
  | Some k' => (k' =? k)%string
  | None => false
  end.

(** The items that carry the prefix, with the prefix cut off. *)
Definition strip_prefix (p : string) (items : dict) : dict :=
  map (fun kv => (drop (String.length p) (fst kv), snd kv))
      (filter (fun kv => startswith (fst kv) p) items).

(** The items with their keys in lower case. *)
Definition lower_keys (items : dict) : dict :=
  map (fun kv => (lower (fst kv), snd kv)) items.

(** [isinstance(v, bool)] *)
Definition is_boolean (v : value) : bool :=
  match v with
  | VBool _ => true
  | _ => false
  end.

(** What [disconnect] does to the tracked server process. *)
Definition stop_process (st : state) : state :=
  match _process st with
  | Some p => set_process None (add_event (EvWait p) (add_event (EvTerminate p) st))
  | None => st
  end.

(** The history after the probe for [mongod] and the three lines
    [_register_test_connection] prints. *)
Definition announced_trace (W : World) (config : dict) (port : value)
    (tr : list event) : list event :=
  EvPrint "@@ TEMP_DB host = localhost" VNone
    :: EvPrint "@@ TEMP_DB port = %s" (selected_port port)
    :: EvPrint "@@ TEMP_DB_LOC  = %s" (temp_db_loc W config tr)
    :: EvMkdtemp
    :: EvExec "mongod --version"
    :: tr.

(** The state at that point: only [_tmpdir] and the history have changed. *)
Definition announced_state (W : World) (config : dict) (port : value)
    (st : state) : state :=
  mkState (_connection_settings st) (_connections st)
          (temp_db_loc W config (trace st)) (_process st) (_app_instance st)
          (announced_trace W config port (trace st)).

(** Whether the probe [mongod --version] counts as failed: it raised, or
    its return code is not 0. *)
Definition probe_failed (answer : (Z * string * string) + exn) : bool :=
  match answer with
  | inl (returncode, _, _) => negb (returncode =? 0)%Z
  | inr _ => true
  end.


(** The history of [st] is [tr0] followed by calls that all satisfy [ok]. *)
Definition emits (ok : event -> Prop) (tr0 : list event) (st : state) : Prop :=
  exists evs, trace st = evs ++ tr0 /\ Forall ok evs.


(** Calls that remove nothing from the file system. *)
Definition keeps_files (e : event) : Prop :=
  match e with
  | EvRmtree _ => False
  | EvRemove _ => False
  | _ => True
  end.

(** [_app_instance] as [create_connection] sets it. *)
Definition app_or_config (config : value) (app : option dict) : app_instance :=
  match app with
  | Some a => AppObject a
  | None => AppValue config
  end.



(* ================================================================== *)
(** * Facts about dictionaries *)
(* ================================================================== *)

Section DictFacts.
Context {K V : Type}.
Variable eqb : K -> K -> bool.
Hypothesis eqb_eq : forall a b, eqb a b = true <-> a = b.

Local Abbreviation get := (dict_get eqb).
Local Abbreviation mem := (dict_mem eqb).
Local Abbreviation set := (dict_set eqb).
Local Abbreviation del := (dict_del eqb).

Lemma eqb_refl' k : eqb k k = true.
Proof. now apply eqb_eq. Qed.

Lemma eqb_neq' a b : a <> b -> eqb a b = false.
Proof.
  intros Hne. destruct (eqb a b) eqn:E; [|reflexivity].
  apply eqb_eq in E. contradiction.
Qed.

Lemma dict_get_set_same k v (d : list (K * V)) : get k (set k v d) = Some v.
Proof.
  induction d as [|[k' v'] d IH]; simpl.
  - now rewrite eqb_refl'.
  - destruct (eqb k k') eqn:E; simpl; rewrite E; auto.
Qed.

Lemma dict_get_set_other k k' v (d : list (K * V)) :
  k <> k' -> get k (set k' v d) = get k d.
Proof.
  intros Hne. induction d as [|[k0 v0] d IH]; simpl.
  - now rewrite (eqb_neq' _ _ Hne).
  - destruct (eqb k' k0) eqn:E; simpl.
    + apply eqb_eq in E. subst k0. now rewrite (eqb_neq' _ _ Hne).
    + now rewrite IH.
Qed.

Lemma dict_mem_set k k' v (d : list (K * V)) :
  mem k (set k' v d) = eqb k k' || mem k d.
Proof.
  unfold dict_mem. destruct (eqb k k') eqn:E.
  - apply eqb_eq in E. subst. now rewrite dict_get_set_same.
  - rewrite dict_get_set_other; [reflexivity|].
    intros ->. now rewrite eqb_refl' in E.
Qed.

Lemma dict_get_del_same k (d : list (K * V)) : get k (del k d) = None.
Proof.
  induction d as [|[k' v'] d IH]; simpl; [reflexivity|].
  destruct (eqb k k') eqn:E; simpl; [assumption|]. now rewrite E.
Qed.

Lemma dict_get_del_other k k' (d : list (K * V)) :
  k <> k' -> get k (del k' d) = get k d.
Proof.
  intros Hne. induction d as [|[k0 v0] d IH]; simpl; [reflexivity|].
  destruct (eqb k' k0) eqn:E; simpl.
  - apply eqb_eq in E. subst k0. now rewrite (eqb_neq' _ _ Hne).
  - now rewrite IH.
Qed.

Lemma dict_mem_del k k' (d : list (K * V)) :
  mem k (del k' d) = true -> mem k d = true.
Proof.
  unfold dict_mem. destruct (eqb k k') eqn:E.
  - apply eqb_eq in E. subst. now rewrite dict_get_del_same.
  - rewrite dict_get_del_other; [auto|].
    intros ->. now rewrite eqb_refl' in E.
Qed.

Lemma dict_get_none_keys k (d : list (K * V)) :
  get k d = None <-> ~ In k (keys d).
Proof.
  induction d as [|[k' v'] d IH]; simpl.
  - tauto.
  - destruct (eqb k k') eqn:E.
    + apply eqb_eq in E. subst. split; [discriminate|]. intros H. exfalso. auto.
    + rewrite IH. split.
      * intros H [->|H']; [now rewrite eqb_refl' in E | auto].
      * intros H H'. auto.
Qed.

Lemma dict_get_some_keys k v (d : list (K * V)) :
  get k d = Some v -> In k (keys d).
Proof.
  induction d as [|[k' v'] d IH]; simpl; [discriminate|].
  destruct (eqb k k') eqn:E.
  - apply eqb_eq in E. auto.
  - auto.
Qed.

Lemma dict_set_id k v (d : list (K * V)) : get k d = Some v -> set k v d = d.
Proof.
  induction d as [|[k' v'] d IH]; simpl; [discriminate|].
  destruct (eqb k k') eqn:E.
  - intros [= ->]. reflexivity.
  - intros H. now rewrite IH.
Qed.

Lemma dict_set_absent k v (d : list (K * V)) :
  get k d = None -> set k v d = d ++ [(k, v)].
Proof.
  induction d as [|[k' v'] d IH]; simpl; [reflexivity|].
  destruct (eqb k k') eqn:E; [discriminate|].
  intros H. now rewrite IH.
Qed.

Lemma dict_del_id k (d : list (K * V)) : get k d = None -> del k d = d.
Proof.
  induction d as [|[k' v'] d IH]; simpl; [reflexivity|].
  destruct (eqb k k') eqn:E; [discriminate|]. simpl.
  intros H. now rewrite IH.
Qed.

Lemma dict_get_app k (d1 d2 : list (K * V)) :
  get k (d1 ++ d2) = match get k d1 with Some v => Some v | None => get k d2 end.
Proof.
  induction d1 as [|[k' v'] d1 IH]; simpl; [reflexivity|].
  destruct (eqb k k'); auto.
Qed.

Lemma dict_set_app_l k v v0 (d1 d2 : list (K * V)) :
  get k d1 = Some v0 -> set k v (d1 ++ d2) = set k v d1 ++ d2.
Proof.
  induction d1 as [|[k' v'] d1 IH]; simpl; [discriminate|].
  destruct (eqb k k'); [reflexivity|].
  intros H. now rewrite IH.
Qed.

Lemma dict_del_app k (d1 d2 : list (K * V)) :
  del k (d1 ++ d2) = del k d1 ++ del k d2.
Proof. apply filter_app. Qed.

Lemma keys_set_present k v v0 (d : list (K * V)) :
  get k d = Some v0 -> keys (set k v d) = keys d.
Proof.
  induction d as [|[k' v'] d IH]; simpl; [discriminate|].
  destruct (eqb k k'); simpl; [reflexivity|].
  intros H. now rewrite IH.
Qed.

Lemma keys_set k v (d : list (K * V)) :
  keys (set k v d) = keys d \/ (get k d = None /\ keys (set k v d) = keys d ++ [k]).
Proof.
  destruct (get k d) eqn:E.
  - left. eapply keys_set_present; eauto.
  - right. split; [reflexivity|]. rewrite dict_set_absent by assumption.
    unfold keys. now rewrite map_app.
Qed.

Lemma NoDup_keys_set k v (d : list (K * V)) :
  NoDup (keys d) -> NoDup (keys (set k v d)).
Proof.
  intros Hnd. destruct (keys_set k v d) as [->|[Hnone ->]]; [assumption|].
  apply dict_get_none_keys in Hnone.
  apply NoDup_app; [assumption | repeat constructor; simpl; tauto |].
  intros x Hx [<-|[]]. contradiction.
Qed.

Lemma keys_del_incl k (d : list (K * V)) x :
  In x (keys (del k d)) -> In x (keys d).
Proof.
  unfold keys, dict_del. rewrite !in_map_iff.
  intros [kv [<- Hin]]. apply filter_In in Hin. exists kv. tauto.
Qed.

Lemma NoDup_keys_del k (d : list (K * V)) :
  NoDup (keys d) -> NoDup (keys (del k d)).
Proof.
  induction d as [|[k' v'] d IH]; simpl; [auto|].
  intros Hnd. inversion Hnd as [|? ? Hnin Hnd']; subst.
  destruct (eqb k k'); simpl; [auto|].
  constructor; [|auto]. intros Hin. apply Hnin. eapply keys_del_incl; eauto.
Qed.

Lemma keys_set_incl k v (d : list (K * V)) x :
  In x (keys (set k v d)) -> x = k \/ In x (keys d).
Proof.
  destruct (keys_set k v d) as [->|[_ ->]]; [auto|].
  rewrite in_app_iff. simpl. intuition.
Qed.
End DictFacts.

(* ================================================================== *)
(** * Facts about settings resolution *)
(* ================================================================== *)

Lemma lower_ascii_idem c : lower_ascii (lower_ascii c) = lower_ascii c.
Proof. destruct c as [[] [] [] [] [] [] [] []]; reflexivity. Qed.

Lemma lower_idem s : lower (lower s) = lower s.
Proof.
  induction s as [|c s IH]; simpl; [reflexivity|].
  now rewrite lower_ascii_idem, IH.
Qed.

Lemma sget_sset k k' v d :
  sget k (sset k' v d) = if (k =? k')%string then Some v else sget k d.
Proof.
  unfold sget, sset. destruct (String.eqb_spec k k') as [->|Hne].
  - apply dict_get_set_same, String.eqb_eq.
  - apply dict_get_set_other; [apply String.eqb_eq | assumption].
Qed.

Lemma sget_sdel k k' d :
  sget k (sdel k' d) = if (k =? k')%string then None else sget k d.
Proof.
  unfold sget, sdel. destruct (String.eqb_spec k k') as [->|Hne].
  - apply dict_get_del_same.
  - apply dict_get_del_other; [apply String.eqb_eq | assumption].
Qed.

Lemma smem_sset k k' v d :
  smem k (sset k' v d) = (k =? k')%string || smem k d.
Proof. unfold smem, dict_mem. fold sget. rewrite sget_sset. now destruct (k =? k')%string. Qed.

Lemma smem_sdel k k' d :
  smem k (sdel k' d) = negb (k =? k')%string && smem k d.
Proof. unfold smem, dict_mem. fold sget. rewrite sget_sdel. now destruct (k =? k')%string. Qed.

Lemma smem_sget k d : smem k d = true <-> exists v, sget k d = Some v.
Proof.
  unfold smem, dict_mem. fold sget. destruct (sget k d).
  - split; eauto.
  - split; [discriminate | intros [v Hv]; discriminate].
Qed.

Lemma sget_app k d1 d2 :
  sget k (d1 ++ d2) = match sget k d1 with Some v => Some v | None => sget k d2 end.
Proof. apply dict_get_app. Qed.

Lemma sset_id k v d : sget k d = Some v -> sset k v d = d.
Proof. apply dict_set_id. Qed.

Lemma sset_absent k v d : sget k d = None -> sset k v d = d ++ [(k, v)].
Proof. apply dict_set_absent. Qed.

Lemma sdel_id k d : sget k d = None -> sdel k d = d.
Proof. apply dict_del_id. Qed.

Lemma sset_app_l k v d1 d2 :
  smem k d1 = true -> sset k v (d1 ++ d2) = sset k v d1 ++ d2.
Proof.
  intros H. apply smem_sget in H. destruct H as [v0 H].
  eapply dict_set_app_l; eauto.
Qed.

Lemma set_default_present k default r :
  smem k r = true -> set_default k default r = r.
Proof.
  intros H. apply smem_sget in H. destruct H as [v H].
  unfold set_default, sget_default, dict_get_default. fold sget.
  rewrite H. now apply sset_id.
Qed.

Lemma smem_set_default k k' default r :
  smem k (set_default k' default r) = (k =? k')%string || smem k r.
Proof. unfold set_default. apply smem_sset. Qed.

Lemma sget_set_default_other k k' default r :
  (k =? k')%string = false -> sget k (set_default k' default r) = sget k r.
Proof. intros H. unfold set_default. now rewrite sget_sset, H. Qed.

Lemma lowkeys_sset k v d : lower k = k -> lowkeys d -> lowkeys (sset k v d).
Proof.
  intros Hk Hd x Hx. apply (keys_set_incl String.eqb) in Hx.
  destruct Hx as [->|Hx]; auto.
Qed.

Lemma lowkeys_sdel k d : lowkeys d -> lowkeys (sdel k d).
Proof. intros Hd x Hx. apply Hd. eapply keys_del_incl; eauto. Qed.

Lemma lowkeys_set_default k default d :
  lower k = k -> lowkeys d -> lowkeys (set_default k default d).
Proof. intros. now apply lowkeys_sset. Qed.

Lemma NoDup_sset k v d : NoDup (keys d) -> NoDup (keys (sset k v d)).
Proof. apply NoDup_keys_set, String.eqb_eq. Qed.

Lemma NoDup_sdel k d : NoDup (keys d) -> NoDup (keys (sdel k d)).
Proof. apply NoDup_keys_del. Qed.

Lemma lowkeys_absent k d : lowkeys d -> lower k <> k -> sget k d = None.
Proof.
  intros Hd Hk. apply (dict_get_none_keys String.eqb String.eqb_eq).
  intros Hin. apply Hk. now apply Hd.
Qed.

(** The loop yields distinct lower-case keys, whatever it starts from. *)
Lemma resolve_loop_inv p items acc :
  lowkeys acc -> NoDup (keys acc) ->
  lowkeys (fold_left (resolve_item p) items acc)
  /\ NoDup (keys (fold_left (resolve_item p) items acc)).
Proof.
  revert acc. induction items as [|[k v] items IH]; intros acc Hl Hn; simpl; [auto|].
  apply IH.
  - destruct (prefix_given p); [destruct (startswith k s)|]; auto;
      apply lowkeys_sset; auto using lower_idem.
  - destruct (prefix_given p); [destruct (startswith k s)|]; auto using NoDup_sset.
Qed.

(** On distinct lower-case keys the loop without prefix copies its input. *)
Lemma resolve_loop_copy items acc :
  lowkeys items -> NoDup (keys acc ++ keys items) ->
  fold_left (resolve_item None) items acc = acc ++ items.
Proof.
  revert acc. induction items as [|[k v] items IH]; intros acc Hl Hn; simpl.
  - now rewrite app_nil_r.
  - assert (Hk : lower k = k) by (apply Hl; simpl; auto).
    rewrite Hk.
    assert (Hnone : sget k acc = None).
    { apply (dict_get_none_keys String.eqb String.eqb_eq).
      intros Hin. apply NoDup_remove_2 in Hn. apply Hn.
      apply in_or_app. auto. }
    rewrite (sset_absent _ _ _ Hnone).
    rewrite IH.
    + now rewrite <- app_assoc.
    + intros x Hx. apply Hl. simpl. auto.
    + unfold keys in *. rewrite map_app. simpl. rewrite <- app_assoc. exact Hn.
Qed.

Ltac dict_simpl :=
  repeat (rewrite ?sget_sset, ?sget_sdel, ?smem_sset, ?smem_sdel,
            ?smem_set_default; simpl).

Lemma resolve_name_facts r :
  lowkeys r -> NoDup (keys r) ->
  lowkeys (resolve_name r) /\ NoDup (keys (resolve_name r)) /\
  sget "db" (resolve_name r) = None /\ smem "name" (resolve_name r) = true /\
  sget "replicaset" (resolve_name r) = sget "replicaset" r /\
  sget "password" (resolve_name r) = sget "password" r.
Proof.
  intros Hl Hn. unfold resolve_name. destruct (sget "db" r) eqn:E.
  - repeat split; dict_simpl; auto.
    + apply lowkeys_sset; [reflexivity | now apply lowkeys_sdel].
    + now apply NoDup_sset, NoDup_sdel.
  - repeat split; dict_simpl; auto.
    + now apply lowkeys_sset.
    + now apply NoDup_sset.
Qed.

Lemma resolve_defaults_facts r :
  lowkeys r -> NoDup (keys r) ->
  lowkeys (resolve_defaults r) /\ NoDup (keys (resolve_defaults r)) /\
  (forall k, smem k r = true -> smem k (resolve_defaults r) = true) /\
  smem "alias" (resolve_defaults r) = true /\
  smem "host" (resolve_defaults r) = true /\
  smem "port" (resolve_defaults r) = true /\
  smem "username" (resolve_defaults r) = true /\
  smem "read_preference" (resolve_defaults r) = true /\
  sget "db" (resolve_defaults r) = sget "db" r /\
  sget "replicaset" (resolve_defaults r) = sget "replicaset" r /\
  sget "password" (resolve_defaults r) = sget "password" r.
Proof.
  intros Hl Hn. unfold resolve_defaults.
  repeat split;
    try (rewrite !sget_set_default_other by reflexivity; reflexivity);
    try (dict_simpl; rewrite ?orb_true_r; reflexivity).
  - repeat apply lowkeys_set_default; auto.
  - unfold set_default. repeat apply NoDup_sset. assumption.
  - intros k Hk. dict_simpl. rewrite Hk. now rewrite !orb_true_r.
Qed.

Lemma resolved_base_password rp d :
  lowkeys d -> NoDup (keys d) ->
  sget "db" d = None -> sget "replicaset" d = None ->
  smem "name" d = true -> smem "alias" d = true -> smem "host" d = true ->
  smem "port" d = true -> smem "username" d = true ->
  smem "read_preference" d = true ->
  resolved_base rp (resolve_password rp d).
Proof.
  intros. destruct rp; simpl.
  - constructor; dict_simpl; auto using lowkeys_sdel, NoDup_sdel.
  - constructor; auto. discriminate.
Qed.

(** Every resolved descriptor has the shape above. *)
Lemma resolve_dict_shape p rp items : resolved_shape rp (resolve_dict p rp items).
Proof.
  unfold resolve_dict.
  destruct (resolve_loop_inv p items []) as [HlE HnE];
    [intros k [] | constructor |].
  fold (resolve_loop p items) in HlE, HnE.
  destruct (resolve_name_facts _ HlE HnE) as (HlA & HnA & HdbA & HnameA & _ & _).
  destruct (resolve_defaults_facts _ HlA HnA)
    as (HlB & HnB & Hmono & Halias & Hhost & Hport & Huser & Hread & HdbB & _ & _).
  set (B := resolve_defaults (resolve_name (resolve_loop p items))) in *.
  unfold resolve_replicaset. destruct (sget "replicaset" B) as [rs|] eqn:Ers.
  - exists (resolve_password rp (sdel "replicaset" B)), [("replicaSet", rs)].
    split; [|split; [|right; eauto]].
    + rewrite sset_absent.
      * destruct rp; simpl; [|reflexivity].
        unfold sdel at 1. now rewrite dict_del_app.
      * apply lowkeys_absent; [now apply lowkeys_sdel | discriminate].
    + apply resolved_base_password; dict_simpl;
        auto using lowkeys_sdel, NoDup_sdel; congruence.
  - exists (resolve_password rp B), []. rewrite app_nil_r.
    split; [reflexivity | split; [|left; reflexivity]].
    apply resolved_base_password; auto; congruence.
Qed.

Lemma resolved_shape_nonempty rp d : resolved_shape rp d -> d <> [].
Proof.
  intros (d0 & tail & -> & Hb & _) Heq.
  apply app_eq_nil in Heq. destruct Heq as [-> _].
  pose proof (rb_name _ _ Hb) as H. discriminate.
Qed.

(** Resolving a resolved descriptor again, without prefix, only resets its
    ["name"]. *)
Lemma resolve_shape_again rp d :
  resolved_shape rp d ->
  resolve_dict None rp d = sset "name" (VStr "test") d.
Proof.
  intros (d0 & tail & -> & Hb & Htail).
  destruct Hb as [Hl Hn Hdb Hrs Hname Halias Hhost Hport Huser Hread Hpass].
  set (d1 := sset "name" (VStr "test") d0).
  assert (Hd1 : forall k, (k =? "name")%string = false -> sget k d1 = sget k d0).
  { intros k Hk. unfold d1. now rewrite sget_sset, Hk. }
  assert (Hm1 : forall k, smem k d0 = true -> smem k d1 = true).
  { intros k Hk. unfold d1. rewrite smem_sset, Hk. apply orb_true_r. }
  assert (Hl1 : lowkeys d1) by (now apply lowkeys_sset).
  rewrite (sset_app_l _ _ _ _ Hname). fold d1.
  assert (Hdefaults : forall lowtail,
             resolve_defaults (d1 ++ lowtail) = d1 ++ lowtail).
  { intros lowtail. unfold resolve_defaults.
    assert (Hm : forall k, smem k d0 = true -> smem k (d1 ++ lowtail) = true).
    { intros k Hk. apply Hm1 in Hk. apply smem_sget in Hk. destruct Hk as [v Hv].
      apply smem_sget. exists v. now rewrite sget_app, Hv. }
    rewrite (set_default_present "alias") by auto.
    rewrite (set_default_present "host") by auto.
    rewrite (set_default_present "port") by auto.
    rewrite (set_default_present "username") by auto.
    now rewrite (set_default_present "read_preference") by auto. }
  unfold resolve_dict, resolve_loop.
  rewrite fold_left_app.
  rewrite (resolve_loop_copy d0 []); [|assumption|simpl; assumption].
  simpl app at 1.
  destruct Htail as [->|[rs ->]].
  - simpl. rewrite app_nil_r.
    unfold resolve_name. rewrite Hdb. fold d1.
    specialize (Hdefaults []). rewrite app_nil_r in Hdefaults. rewrite Hdefaults.
    unfold resolve_replicaset. rewrite Hd1 by reflexivity. rewrite Hrs.
    destruct rp; simpl; [|reflexivity].
    apply sdel_id. rewrite Hd1 by reflexivity. auto.
  - simpl. rewrite (sset_absent _ _ _ Hrs).
    unfold resolve_name. rewrite sget_app, Hdb. simpl.
    rewrite (sset_app_l _ _ _ _ Hname). fold d1.
    rewrite Hdefaults.
    unfold resolve_replicaset. rewrite sget_app, Hd1 by reflexivity. rewrite Hrs. simpl.
    unfold sdel at 1. rewrite dict_del_app. fold sdel. simpl.
    rewrite app_nil_r, sdel_id by (rewrite Hd1 by reflexivity; assumption).
    rewrite sset_absent by (apply lowkeys_absent; [assumption | discriminate]).
    destruct rp; simpl; [|reflexivity].
    unfold sdel. rewrite dict_del_app. fold sdel. simpl.
    rewrite sdel_id; [reflexivity|].
    rewrite Hd1 by reflexivity. auto.
Qed.

Lemma resolve_item_key p acc k v :
  resolve_item p acc (k, v)
  = match resolved_key p k with Some k' => sset k' v acc | None => acc end.
Proof.
  unfold resolve_item, resolved_key.
  destruct (prefix_given p); [destruct (startswith k s)|]; reflexivity.
Qed.

Lemma In_keys_sset x k v d : In x (keys (sset k v d)) <-> x = k \/ In x (keys d).
Proof.
  split.
  - apply keys_set_incl.
  - intros [->|Hin].
    + eapply dict_get_some_keys; [apply String.eqb_eq|].
      apply (dict_get_set_same String.eqb String.eqb_eq).
    + destruct (keys_set String.eqb k v d) as [E|[_ E]]; unfold sset; rewrite E; auto.
      apply in_or_app. auto.
Qed.

Lemma resolve_loop_keys p items acc k :
  In k (keys (fold_left (resolve_item p) items acc)) <->
  In k (keys acc) \/
  exists k0 v0, In (k0, v0) items /\ resolved_key p k0 = Some k.
Proof.
  revert acc. induction items as [|[k1 v1] items IH]; intros acc; cbn [fold_left].
  - split; [auto | intros [H|(k0 & v0 & [] & _)]; assumption].
  - rewrite IH, resolve_item_key. split.
    + intros [H|(k0 & v0 & Hin & Hk)].
      * destruct (resolved_key p k1) as [k'|] eqn:E; [|auto].
        apply In_keys_sset in H. destruct H as [->|H]; [|auto].
        right. exists k1, v1. simpl. auto.
      * right. exists k0, v0. simpl. auto.
    + intros [H|(k0 & v0 & [Heq|Hin] & Hk)].
      * left. destruct (resolved_key p k1); [apply In_keys_sset|]; auto.
      * inversion Heq; subst. left. rewrite Hk. apply In_keys_sset. auto.
      * right. exists k0, v0. auto.
Qed.

Lemma resolve_dict_name_test rp items :
  (forall k v, In (k, v) items -> lower k <> "db") ->
  sget "name" (resolve_dict None rp items) = Some (VStr "test").
Proof.
  intros Hnodb. unfold resolve_dict.
  assert (Hdb : sget "db" (resolve_loop None items) = None).
  { apply (dict_get_none_keys String.eqb String.eqb_eq). intros Hin.
    apply resolve_loop_keys in Hin. destruct Hin as [[]|(k0 & v0 & Hin & Hk)].
    unfold resolved_key in Hk. simpl in Hk. inversion Hk.
    eapply Hnodb; eauto. }
  set (E := resolve_loop None items) in *.
  assert (HA : sget "name" (resolve_name E) = Some (VStr "test")).
  { unfold resolve_name. rewrite Hdb. now rewrite sget_sset. }
  assert (HB : sget "name" (resolve_defaults (resolve_name E)) = Some (VStr "test")).
  { unfold resolve_defaults. now rewrite !sget_set_default_other by reflexivity. }
  set (B := resolve_defaults (resolve_name E)) in *.
  assert (HC : sget "name" (resolve_replicaset B) = Some (VStr "test")).
  { unfold resolve_replicaset. destruct (sget "replicaset" B); [|assumption].
    now dict_simpl. }
  unfold resolve_password. destruct rp; [|assumption]. now dict_simpl.
Qed.

Lemma resolve_settings_twice s rp :
  _resolve_settings (_resolve_settings s None rp) None rp
  = reset_name (_resolve_settings s None rp).
Proof.
  destruct s as [a|l|[|kv items]]; try reflexivity.
  unfold _resolve_settings at 2 3. 
  pose proof (resolve_dict_shape None rp (kv :: items)) as Hshape.
  pose proof (resolved_shape_nonempty _ _ Hshape) as Hne.
  pose proof (resolve_shape_again _ _ Hshape) as Hagain.
  destruct (resolve_dict None rp (kv :: items)) as [|kv' items'] eqn:E;
    [congruence|].
  simpl. now rewrite Hagain.
Qed.

Lemma resolve_loop_none_kept p items acc :
  (forall k v, In (k, v) items -> resolved_key p k = None) ->
  fold_left (resolve_item p) items acc = acc.
Proof.
  revert acc. induction items as [|[k v] items IH]; intros acc H; cbn [fold_left];
    [reflexivity|].
  rewrite resolve_item_key, (H k v) by (simpl; auto).
  apply IH. intros k' v' Hin. apply (H k' v'). simpl. auto.
Qed.

Lemma resolve_dict_keys p rp items k :
  In k (keys (resolve_dict p rp items)) ->
  In k injected_keys \/ In k (keys (resolve_loop p items)).
Proof.
  unfold resolve_dict. set (E := resolve_loop p items). intros H.
  assert (H1 : In k (keys (resolve_replicaset (resolve_defaults (resolve_name E))))).
  { unfold resolve_password in H. destruct rp; [|assumption].
    eapply keys_del_incl; eauto. }
  clear H.
  assert (H2 : In k injected_keys \/ In k (keys (resolve_defaults (resolve_name E)))).
  { unfold resolve_replicaset in H1.
    destruct (sget "replicaset" (resolve_defaults (resolve_name E))); [|auto].
    apply In_keys_sset in H1. destruct H1 as [->|H1]; [left; simpl; tauto|].
    right. eapply keys_del_incl; eauto. }
  clear H1. destruct H2 as [H2|H2]; [auto|].
  unfold resolve_defaults, set_default in H2.
  repeat (apply In_keys_sset in H2; destruct H2 as [->|H2]; [left; simpl; tauto|]).
  unfold resolve_name in H2. destruct (sget "db" E).
  - apply In_keys_sset in H2. destruct H2 as [->|H2]; [left; simpl; tauto|].
    right. eapply keys_del_incl; eauto.
  - apply In_keys_sset in H2. destruct H2 as [->|H2]; [left; simpl; tauto|auto].
Qed.

(** C8: resolving the flat configuration of P3 with prefix ["MONGODB_"], by
    [_resolve_settings] or through [fetch_connection_settings], gives the
    descriptor with host ["h"], port 1234, name ["x"], the default alias,
    read preference PRIMARY (and the injected [username = None]) and no
    ["db"] key; in general the loop keeps exactly the keys that carry the
    prefix, stored with the prefix dropped and in lower case, and a resolved
    descriptor has no other keys than those and the injected ones. *)
Theorem resolve_prefixed_configuration :
  (forall remove_pass,
      _resolve_settings (VDict p3_config) (Some "MONGODB_") remove_pass
      = VDict p3_descriptor
      /\ fetch_connection_settings p3_config remove_pass = VDict p3_descriptor)
  /\ sget "host" p3_descriptor = Some (VStr "h")
  /\ sget "port" p3_descriptor = Some (VInt 1234)
  /\ sget "name" p3_descriptor = Some (VStr "x")
  /\ sget "alias" p3_descriptor = Some (VStr DEFAULT_CONNECTION_NAME)
  /\ sget "read_preference" p3_descriptor = Some PRIMARY
  /\ sget "db" p3_descriptor = None
  /\ (forall c p items k,
        In k (keys (resolve_loop (Some (String c p)) items)) <->
        exists k0 v0, In (k0, v0) items /\ startswith k0 (String c p) = true
                      /\ k = lower (drop (String.length (String c p)) k0))
  /\ (forall c p remove_pass items k,
        In k (keys (resolve_dict (Some (String c p)) remove_pass items)) ->
        In k injected_keys \/
        exists k0 v0, In (k0, v0) items /\ startswith k0 (String c p) = true
                      /\ k = lower (drop (String.length (String c p)) k0)).
Proof.
  assert (Hloop : forall c p items k,
        In k (keys (resolve_loop (Some (String c p)) items)) <->
        exists k0 v0, In (k0, v0) items /\ startswith k0 (String c p) = true
                      /\ k = lower (drop (String.length (String c p)) k0)).
  { intros c p items k. unfold resolve_loop. rewrite resolve_loop_keys.
    unfold resolved_key. cbn [prefix_given]. split.
    - intros [[]|(k0 & v0 & Hin & Hk)]. exists k0, v0.
      destruct (startswith k0 (String c p)); [|discriminate].
      inversion Hk. auto.
    - intros (k0 & v0 & Hin & Hs & ->). right. exists k0, v0.
      now rewrite Hs. }
  repeat split; try reflexivity; try (destruct remove_pass; reflexivity).
  - apply Hloop.
  - apply Hloop.
  - intros c p rp items k Hin. apply resolve_dict_keys in Hin.
    destruct Hin as [Hin|Hin]; [auto|]. right. now apply Hloop.
Qed.

(** C9, as stated, fails on the empty mapping: none of its keys starts with
    the prefix, and it is returned as it is, without the defaults. *)
Lemma resolve_empty_mapping_counterexample :
  (forall k v, In (k, v) ([] : dict) -> startswith k "MONGODB_" = false)
  /\ _resolve_settings (VDict []) (Some "MONGODB_") true = VDict []
  /\ _resolve_settings (VDict []) (Some "MONGODB_") true <> VDict injected_defaults.
Proof.
  split; [intros k v []|]. split; [reflexivity|]. discriminate.
Qed.

(** C9 (amended): for every non-empty mapping none of whose keys starts with
    the prefix, resolving with that prefix returns the descriptor that holds
    exactly the injected defaults, and does not raise. *)
Theorem resolve_no_matching_key p remove_pass kv items :
  (forall k v, In (k, v) (kv :: items) -> startswith k p = false) ->
  _resolve_settings (VDict (kv :: items)) (Some p) remove_pass
  = VDict injected_defaults.
Proof.
  intros H. destruct p as [|c p].
  - destruct kv as [k v]. specialize (H k v (or_introl eq_refl)).
    unfold startswith in H. destruct k; discriminate.
  - unfold _resolve_settings, resolve_dict, resolve_loop.
    rewrite resolve_loop_none_kept.
    + destruct remove_pass; reflexivity.
    + intros k v Hin. unfold resolved_key. cbn [prefix_given].
      now rewrite (H k v Hin).
Qed.

Lemma resolve_no_matching_key_witness :
  _resolve_settings (VDict [("SECRET_KEY", VStr "s"); ("DEBUG", VBool true)])
                    (Some "MONGODB_") true
  = VDict injected_defaults.
Proof.
  apply resolve_no_matching_key.
  intros k v [H|[H|[]]]; inversion H; reflexivity.
Defined.

(** C10, as stated, fails on a mapping with a ["db"] key: the second pass
    finds no ["db"] and sets ["name"] to ["test"]. *)
Lemma resolve_twice_counterexample :
  _resolve_settings (_resolve_settings (VDict [("db", VStr "x")]) None true) None true
  <> _resolve_settings (VDict [("db", VStr "x")]) None true.
Proof. discriminate. Qed.

(** C10 (amended): without a prefix, resolving a resolved value again resets
    its ["name"] to ["test"] and changes nothing else; so resolution is
    idempotent on every input that is passed through or has no key reading
    ["db"] in lower case, the ["replicaSet"] entry included. *)
Theorem resolve_settings_idempotent_without_db s remove_pass :
  _resolve_settings (_resolve_settings s None remove_pass) None remove_pass
  = reset_name (_resolve_settings s None remove_pass)
  /\ (no_db_key s ->
      _resolve_settings (_resolve_settings s None remove_pass) None remove_pass
      = _resolve_settings s None remove_pass).
Proof.
  split; [apply resolve_settings_twice|].
  intros Hnodb. rewrite resolve_settings_twice.
  destruct s as [a|l|[|kv items]]; try reflexivity.
  unfold _resolve_settings.
  pose proof (resolve_dict_name_test remove_pass (kv :: items) Hnodb) as Hname.
  destruct (resolve_dict None remove_pass (kv :: items)) as [|kv' items'] eqn:E;
    [reflexivity|].
  unfold reset_name. now rewrite (sset_id _ _ _ Hname).
Qed.

Lemma resolve_settings_idempotent_without_db_witness :
  let s := VDict [("HOST", VStr "h"); ("replicaSet", VStr "rs0");
                  ("Password", VStr "pw")] in
  _resolve_settings (_resolve_settings s None true) None true
  = _resolve_settings s None true.
Proof.
  apply (resolve_settings_idempotent_without_db
           (VDict [("HOST", VStr "h"); ("replicaSet", VStr "rs0");
                   ("Password", VStr "pw")]) true).
  intros k v [H|[H|[H|[]]]]; inversion H; discriminate.
Defined.

(* ================================================================== *)
(** * Facts about the registry invariant *)
(* ================================================================== *)

Lemma key_eqb_eq a b : key_eqb a b = true <-> a = b.
Proof.
  destruct a, b; simpl; split; intros H; try discriminate; try reflexivity.
  - apply Z.eqb_eq in H. now subst.
  - inversion H. apply Z.eqb_refl.
  - apply String.eqb_eq in H. now subst.
  - inversion H. apply String.eqb_refl.
  - apply String.eqb_eq in H. now subst.
  - inversion H. apply String.eqb_refl.
Qed.

Section Preservation.
Context {A B : Type}.
Variable P : state -> Prop.

Lemma preserves_ret (a : A) : preserves P (ret a).
Proof. intros st H. exact H. Qed.

Lemma preserves_raise (e : exn) : preserves P (@raise A e).
Proof. intros st H. exact H. Qed.

Lemma preserves_gets (f : state -> A) : preserves P (gets f).
Proof. intros st H. exact H. Qed.

Lemma preserves_bind (m : M A) (f : A -> M B) :
  preserves P m -> (forall a, preserves P (f a)) -> preserves P (bind m f).
Proof.
  intros Hm Hf st H. unfold bind. specialize (Hm st H).
  destruct (m st) as [[a|e] st']; simpl in *; [now apply Hf | assumption].
Qed.

Lemma preserves_try (m : M A) (handler : exn -> M A) :
  preserves P m -> (forall e, preserves P (handler e)) ->
  preserves P (try_catch m handler).
Proof.
  intros Hm Hh st H. unfold try_catch. specialize (Hm st H).
  destruct (m st) as [[a|e] st']; simpl in *; [assumption | now apply Hh].
Qed.

(** Reading the state and going on with what was read. *)
Lemma preserves_gets_bind (g : state -> A) (f : A -> M B) :
  (forall st, P st -> P (snd (f (g st) st))) -> preserves P (bind (gets g) f).
Proof. intros H st HP. unfold bind, gets. now apply H. Qed.
End Preservation.

Section PreservationRegistry.
Context {A : Type}.
Variable Q : list (key * dict) -> list (key * client) -> Prop.

Lemma preserves_log (e : event) : preserves (on_registry Q) (log e).
Proof. intros st H. exact H. Qed.

Lemma preserves_call (answer : list event -> A + exn) (e : event) :
  preserves (on_registry Q) (call answer e).
Proof. intros st H. unfold call. now destruct (answer (trace st)). Qed.

Lemma preserves_set_tmpdir v : preserves (on_registry Q) (modify (set_tmpdir v)).
Proof. intros st H. exact H. Qed.

Lemma preserves_set_process p : preserves (on_registry Q) (modify (set_process p)).
Proof. intros st H. exact H. Qed.

Lemma preserves_set_app_instance a :
  preserves (on_registry Q) (modify (set_app_instance a)).
Proof. intros st H. exact H. Qed.

Lemma preserves_set_connections f :
  (forall s c, Q s c -> Q s (f c)) ->
  preserves (on_registry Q) (modify (set_connections f)).
Proof. intros Hf st H. now apply Hf. Qed.

Lemma preserves_set_connection_settings f :
  (forall s c, Q s c -> Q (f s) c) ->
  preserves (on_registry Q) (modify (set_connection_settings f)).
Proof. intros Hf st H. now apply Hf. Qed.
End PreservationRegistry.

Lemma preserves_weaken {A} (P P' : state -> Prop) (m : M A) st :
  preserves P m -> P st -> (forall st', P st' -> P' st') -> P' (snd (m st)).
Proof. intros Hm HP Himp. apply Himp. now apply Hm. Qed.

(** Breaking a computation into its steps. *)
Ltac preserve_step :=
  match goal with
  | |- preserves _ (ret _) => apply preserves_ret
  | |- preserves _ (raise _) => apply preserves_raise
  | |- preserves _ (gets _) => apply preserves_gets
  | |- preserves _ (log _) => apply preserves_log
  | |- preserves _ (call _ _) => apply preserves_call
  | |- preserves _ (modify (set_tmpdir _)) => apply preserves_set_tmpdir
  | |- preserves _ (modify (set_process _)) => apply preserves_set_process
  | |- preserves _ (modify (set_app_instance _)) => apply preserves_set_app_instance
  | |- preserves _ (bind _ _) => apply preserves_bind; [|intros]
  | |- preserves _ (try_catch _ _) => apply preserves_try; [|intros]
  | |- preserves _ (match ?x with _ => _ end) => destruct x
  end.

Ltac preserve := repeat preserve_step.

Lemma registry_ok_set_client settings conns k c :
  registry_ok settings conns -> dict_mem key_eqb k settings = true ->
  registry_ok settings (dict_set key_eqb k c conns).
Proof.
  intros [Hc Hs] Hk. split; [|assumption].
  intros k'. rewrite (dict_mem_set key_eqb key_eqb_eq).
  destruct (key_eqb k' k) eqn:E; simpl; [|apply Hc].
  apply key_eqb_eq in E. now subst.
Qed.

Lemma registry_ok_del_client settings conns k :
  registry_ok settings conns -> registry_ok settings (dict_del key_eqb k conns).
Proof.
  intros [Hc Hs]. split; [|assumption].
  intros k' H. apply Hc. eapply dict_mem_del; eauto using key_eqb_eq.
Qed.

Lemma registry_ok_set_settings settings conns k d :
  registry_ok settings conns ->
  (forall v, sget "alias" d = Some v -> hash_key v = Some k) ->
  registry_ok (dict_set key_eqb k d settings) conns.
Proof.
  intros [Hc Hs] Hd. split.
  - intros k' H. rewrite (dict_mem_set key_eqb key_eqb_eq).
    rewrite (Hc k' H). apply orb_true_r.
  - intros k' d' v Hget Halias.
    destruct (key_eqb k' k) eqn:E.
    + apply key_eqb_eq in E. subst k'.
      rewrite (dict_get_set_same key_eqb key_eqb_eq) in Hget.
      inversion Hget; subst. auto.
    + rewrite (dict_get_set_other key_eqb key_eqb_eq) in Hget.
      * eapply Hs; eauto.
      * intros ->. rewrite (eqb_refl' key_eqb key_eqb_eq) in E. discriminate.
Qed.

Lemma mem_set_settings settings k k' (d : dict) :
  dict_mem key_eqb k settings = true ->
  dict_mem key_eqb k (dict_set key_eqb k' d settings) = true.
Proof.
  intros H. rewrite (dict_mem_set key_eqb key_eqb_eq), H. apply orb_true_r.
Qed.

Lemma preserves_at {A} (P : state -> Prop) (m : M A) st :
  preserves P m -> P st -> P (snd (m st)).
Proof. intros Hm HP. now apply Hm. Qed.

Lemma preserves_bind_ret {A B} (P : state -> Prop) (a : A) (f : A -> M B) :
  preserves P (f a) -> preserves P (bind (ret a) f).
Proof. intros H st HP. exact (H st HP). Qed.

Lemma preserves_iff {A} (P P' : state -> Prop) (m : M A) :
  (forall st, P st <-> P' st) -> preserves P m -> preserves P' m.
Proof. intros Hiff Hm st HP. apply Hiff, Hm, Hiff, HP. Qed.

Lemma preserves_hash (P : state -> Prop) v : preserves P (hash v).
Proof. intros st H. now destruct v. Qed.

Lemma preserves_getitem (P : state -> Prop) k d : preserves P (getitem k d).
Proof. intros st H. unfold getitem. now destruct (sget k d). Qed.

Lemma preserves_getitem_bind {B} (P : state -> Prop) k d (f : value -> M B) :
  (forall v, sget k d = Some v -> preserves P (f v)) ->
  preserves P (bind (getitem k d) f).
Proof.
  intros H st HP. unfold bind, getitem. destruct (sget k d) as [v|] eqn:E.
  - exact (H v eq_refl st HP).
  - exact HP.
Qed.

Lemma preserves_hash_bind {B} (P : state -> Prop) v (f : atom * key -> M B) :
  (forall a, v = VAtom a -> preserves P (f (a, atom_key a))) ->
  preserves P (bind (hash v) f).
Proof.
  intros H st HP. unfold bind, hash. destruct v as [a| |]; try exact HP.
  exact (H a eq_refl st HP).
Qed.

Lemma preserves_value_startswith (P : state -> Prop) v p :
  preserves P (value_startswith v p).
Proof. intros st H. now destruct v as [[]| |]. Qed.

Lemma preserves_get_app_config W (P : state -> Prop) k :
  preserves P (__get_app_config W k).
Proof.
  intros st H. unfold __get_app_config, bind, gets.
  destruct (_app_instance st) as [|config|[a|l|d]]; simpl; auto.
  now destruct (current_app W).
Qed.

Lemma preserves_validate_settings (P : state -> Prop) is_test temp_db preserved conn_host :
  preserves P (_validate_settings is_test temp_db preserved conn_host).
Proof.
  unfold _validate_settings.
  destruct is_test as [[]| |]; try apply preserves_raise;
    destruct temp_db as [[]| |]; try apply preserves_raise;
    destruct preserved as [[]| |]; try apply preserves_raise.
  apply preserves_bind.
  - destruct (negb b); [apply preserves_value_startswith | apply preserves_ret].
  - intros mock. destruct (negb b && mock); [apply preserves_raise|].
    destruct (negb b && b0 || b1); [apply preserves_raise | apply preserves_ret].
Qed.

Ltac preserve_more :=
  repeat first
    [ apply preserves_hash
    | apply preserves_getitem
    | apply preserves_value_startswith
    | apply preserves_get_app_config
    | apply preserves_validate_settings
    | preserve_step ].

Lemma preserves_sys_exec W Q cmd : preserves (on_registry Q) (_sys_exec W cmd).
Proof. unfold _sys_exec. preserve_more. Qed.

Lemma preserves_wait_ready W Q attempts port :
  preserves (on_registry Q) (wait_ready W attempts port).
Proof.
  induction attempts as [|n IH]; cbn [wait_ready]; preserve_more. exact IH.
Qed.

Lemma preserves_get_db_handle W Q alias :
  preserves (on_registry Q) (get_db_handle W alias).
Proof. unfold get_db_handle. preserve_more. Qed.

Lemma preserves_get_db W Q alias reconnect :
  preserves (on_registry Q) (get_db W alias reconnect).
Proof.
  unfold get_db, set_global_attributes. preserve_more.
  apply preserves_get_db_handle.
Qed.

Lemma registry_ok_for_hash v v' settings conns :
  hash_key v = hash_key v' ->
  registry_ok_for v settings conns <-> registry_ok_for v' settings conns.
Proof. intros H. unfold registry_ok_for. now rewrite H. Qed.

Lemma registry_ok_for_set_client a c settings conns :
  registry_ok_for (VAtom a) settings conns ->
  registry_ok_for (VAtom a) settings (dict_set key_eqb (atom_key a) c conns).
Proof.
  intros [Hok Hk]. split; [|assumption].
  apply registry_ok_set_client; auto.
Qed.

Lemma preserves_register_test_connection W port db_alias preserved :
  preserves (on_registry (registry_ok_for db_alias))
            (_register_test_connection W port db_alias preserved).
Proof.
  unfold _register_test_connection.
  apply preserves_bind; [preserve_more; apply preserves_sys_exec|].
  intros [|]; [|apply preserves_ret].
  apply preserves_bind; [preserve_more|]. intros config.
  apply preserves_bind; [preserve_more|]. intros tmp.
  do 5 (apply preserves_bind; [preserve_more|]; intros _).
  apply preserves_hash_bind. intros a ->. cbn [snd].
  preserve_more.
  - apply preserves_wait_ready.
  - apply preserves_set_connections. intros s conns. apply registry_ok_for_set_client.
Qed.

Lemma preserves_connect W a db_name conn_settings :
  preserves (on_registry (registry_ok_for (VAtom a)))
            (connect W (atom_key a) db_name conn_settings).
Proof.
  unfold connect. preserve_more.
  apply preserves_set_connections. intros s conns. apply registry_ok_for_set_client.
Qed.

Lemma preserves_establish W a :
  preserves (on_registry (registry_ok_for (VAtom a)))
            (establish W (a, atom_key a)).
Proof.
  unfold establish. apply preserves_gets_bind. intros st HP. cbn [fst snd].
  destruct (dict_get key_eqb (atom_key a) (_connection_settings st))
    as [conn_settings|] eqn:E; [|exact HP].
  assert (Hd : forall v, sget "alias" conn_settings = Some v ->
                         hash_key v = Some (atom_key a)).
  { intros v Hv. destruct HP as [[_ Hs] _]. eapply Hs; eauto. }
  apply preserves_at; [|exact HP]. clear st HP E.
  apply preserves_bind; [preserve_more|]; intros conn_host.
  apply preserves_bind; [preserve_more|]; intros db_name.
  apply preserves_bind; [preserve_more|]; intros is_test.
  apply preserves_bind; [preserve_more|]; intros temp_db.
  apply preserves_bind; [preserve_more|]; intros preserved.
  apply preserves_bind; [preserve_more|]; intros _.
  destruct (truthy is_test); [destruct (truthy temp_db)|].
  - apply preserves_getitem_bind. intros db_alias Halias.
    unfold sget in Halias. fold sget in Halias. rewrite sget_sdel in Halias.
    cbn in Halias. apply Hd in Halias.
    apply preserves_bind; [preserve_more|]; intros port.
    apply preserves_bind; [|intros; apply preserves_ret].
    eapply preserves_iff; [|apply preserves_register_test_connection].
    intros st. unfold on_registry. apply registry_ok_for_hash. exact Halias.
  - preserve_more. apply preserves_connect.
  - preserve_more. apply preserves_connect.
Qed.

Lemma preserves_share_loop W a items connection_class conn_settings connection :
  preserves (on_registry (registry_ok_for (VAtom a)))
            (share_loop W items (atom_key a) connection_class conn_settings connection).
Proof.
  induction items as [|[db_alias settings] items IH]; cbn [share_loop];
    preserve_more; try exact IH;
    apply preserves_set_connections; intros s conns;
    apply registry_ok_for_set_client.
Qed.

Lemma preserves_share_connections W a connection_class conn_settings :
  preserves (on_registry (registry_ok_for (VAtom a)))
            (share_connections W (a, atom_key a) connection_class conn_settings).
Proof.
  unfold share_connections. cbn [fst snd]. preserve_more.
  apply preserves_share_loop.
Qed.

Lemma preserves_get_or_connect_for W a :
  preserves (on_registry (registry_ok_for (VAtom a))) (get_or_connect W (VAtom a)).
Proof.
  unfold get_or_connect. cbn [hash]. apply preserves_bind_ret. cbn [fst snd].
  preserve_more; try apply preserves_get_db_handle.
  - apply preserves_establish.
  - apply preserves_share_connections.
Qed.

(** Without a descriptor and without a client for the alias,
    [get_connection(alias)] raises at once and changes nothing. *)
Lemma get_or_connect_undefined W a st :
  dict_get key_eqb (atom_key a) (_connection_settings st) = None ->
  dict_mem key_eqb (atom_key a) (_connections st) = false ->
  get_or_connect W (VAtom a) st
  = (Raise (ConnectionError (if is_default_alias a
                             then msg_no_default else msg_undefined a)), st).
Proof.
  intros Hs Hc. unfold get_or_connect, establish, bind, gets, hash, ret. cbn [fst snd].
  rewrite Hc. cbn [negb]. now rewrite Hs.
Qed.

Lemma preserves_get_or_connect W alias :
  preserves registry_invariant (get_or_connect W alias).
Proof.
  intros st H. destruct alias as [a|l|d]; try exact H.
  destruct (dict_get key_eqb (atom_key a) (_connection_settings st)) as [d|] eqn:E.
  - eapply preserves_weaken; [apply (preserves_get_or_connect_for W a) | | ].
    + split; [exact H|]. intros k [= <-]. unfold dict_mem. now rewrite E.
    + intros st' [Hok _]. exact Hok.
  - rewrite get_or_connect_undefined; [exact H | assumption |].
    destruct (dict_mem key_eqb (atom_key a) (_connections st)) eqn:Ec; [|reflexivity].
    destruct H as [Hc _]. apply Hc in Ec. unfold dict_mem in Ec.
    rewrite E in Ec. discriminate.
Qed.

Lemma preserves_disconnect W alias preserved :
  preserves registry_invariant (disconnect W alias preserved).
Proof.
  unfold disconnect, set_global_attributes, registry_invariant.
  preserve_more.
  - apply preserves_get_or_connect.
  - apply preserves_set_connections. intros s conns. apply registry_ok_del_client.
Qed.

Lemma preserves_get_connection W alias reconnect :
  preserves registry_invariant (get_connection W alias reconnect).
Proof.
  unfold get_connection, set_global_attributes.
  preserve_more; try apply preserves_disconnect; apply preserves_get_or_connect.
Qed.

Lemma preserves_register_descriptor alias d (ak : atom * key) :
  sget "alias" d = Some alias \/ sget "alias" d = None ->
  hash_key alias = Some (snd ak) ->
  preserves registry_invariant
    (modify (set_connection_settings (dict_set key_eqb (snd ak) d))).
Proof.
  intros Hd Hk. apply preserves_set_connection_settings.
  intros s conns Hok. apply registry_ok_set_settings; [assumption|].
  intros v Hv. destruct Hd as [Hd|Hd]; congruence.
Qed.

Lemma preserves_create_all W conn_settings connections :
  preserves registry_invariant (create_all W conn_settings connections).
Proof.
  revert connections.
  induction conn_settings as [|conn_setting rest IH]; intros connections;
    cbn [create_all]; [apply preserves_ret|].
  destruct conn_setting as [a|l|d]; try apply preserves_raise.
  apply preserves_getitem_bind. intros alias Halias.
  apply preserves_hash_bind. intros a ->.
  preserve_more.
  - apply (preserves_register_descriptor (VAtom a)); auto.
  - apply preserves_get_connection.
  - apply IH.
Qed.

Lemma preserves_create_connection W config app :
  preserves registry_invariant (create_connection W config app).
Proof.
  unfold create_connection.
  apply preserves_bind; [apply preserves_set_app_instance|]. intros _.
  destruct config as [a|l|cfg]; try apply preserves_raise.
  destruct (fetch_connection_settings cfg false) as [a|conn_settings|conn_settings];
    [apply preserves_raise | |].
  - preserve_more. apply preserves_create_all.
  - apply preserves_hash_bind. intros a Ha.
    preserve_more; [|apply preserves_get_connection].
    unfold sget_default, dict_get_default in Ha. fold sget in Ha.
    destruct (sget "alias" conn_settings) as [v|] eqn:E.
    + subst v. apply (preserves_register_descriptor (VAtom a)); auto.
    + apply (preserves_register_descriptor (VAtom a)); auto.
Qed.

Lemma reachable_registry_invariant W st :
  reachable W st -> registry_invariant st.
Proof.
  induction 1 as [|op st Hreach IH|port a preserved st Hreach IH Hmem].
  - split; [intros k H; discriminate | intros k d v H; discriminate].
  - destruct op; cbn [run].
    + now apply preserves_create_connection.
    + now apply preserves_get_connection.
    + now apply preserves_disconnect.
    + now apply (preserves_get_db W registry_ok).
  - eapply preserves_weaken;
      [apply (preserves_register_test_connection W port (VAtom a) preserved) | |].
    + split; [exact IH|]. intros k [= <-]. exact Hmem.
    + intros st' [Hok _]. exact Hok.
Qed.

(* ================================================================== *)
(** * Facts about the readiness wait *)
(* ================================================================== *)

Lemma attempts_trace_shift n port tr :
  attempts_trace n port ++ EvMongoClient "localhost" port :: EvSleep 100 :: tr
  = EvMongoClient "localhost" port :: EvSleep 100 :: attempts_trace n port ++ tr.
Proof.
  induction n as [|n IH]; simpl; [reflexivity|]. now rewrite IH.
Qed.

Lemma add_events_nil st : add_events [] st = st.
Proof. now destruct st. Qed.

Lemma wait_ready_step W n port st :
  wait_ready W (S n) port st
  = match pymongo_MongoClient W (EvSleep 100 :: trace st) "localhost" port with
    | inl c => (Ok (Some c), add_events (attempts_trace 1 port) st)
    | inr (ConnectionFailure _) =>
        wait_ready W n port (add_events (attempts_trace 1 port) st)
    | inr e => (Raise e, add_events (attempts_trace 1 port) st)
    end.
Proof.
  cbn [wait_ready]. unfold bind, try_catch, log, modify, call, ret, raise.
  cbn [trace add_event].
  destruct (pymongo_MongoClient W (EvSleep 100 :: trace st) "localhost" port)
    as [c|[]]; reflexivity.
Qed.

Lemma add_events_attempt n port st :
  add_events (attempts_trace n port) (add_events (attempts_trace 1 port) st)
  = add_events (attempts_trace (S n) port) st.
Proof.
  unfold add_events. cbn [trace _connection_settings _connections _tmpdir
                          _process _app_instance].
  f_equal. cbn [attempts_trace app]. apply attempts_trace_shift.
Qed.

Lemma attempt_answer_next W port st j :
  attempt_answer W (trace (add_events (attempts_trace 1 port) st)) port j
  = attempt_answer W (trace st) port (S j).
Proof.
  unfold attempt_answer. cbn [trace add_events attempts_trace app].
  now rewrite attempts_trace_shift.
Qed.

(** The wait makes between one and [n] rounds and changes only the trace. *)
Lemma wait_ready_rounds W n port st :
  exists m, m <= n /\ (0 < n -> 0 < m) /\
            snd (wait_ready W n port st) = add_events (attempts_trace m port) st.
Proof.
  revert st. induction n as [|n IH]; intros st.
  - exists 0. repeat split; [lia | lia | simpl; now rewrite add_events_nil].
  - rewrite wait_ready_step.
    destruct (pymongo_MongoClient W (EvSleep 100 :: trace st) "localhost" port)
      as [c|e].
    + exists 1. repeat split; lia.
    + destruct e; try (exists 1; repeat split; lia).
      destruct (IH (add_events (attempts_trace 1 port) st)) as (m & Hm & _ & Heq).
      exists (S m). repeat split; [lia | lia |].
      now rewrite Heq, add_events_attempt.
Qed.

(** When every attempt fails with a connection failure, the loop runs out
    after [n] rounds. *)
Lemma wait_ready_exhausted W n port st :
  (forall j, j < n ->
             exists msg, attempt_answer W (trace st) port j = inr (ConnectionFailure msg)) ->
  wait_ready W n port st = (Ok None, add_events (attempts_trace n port) st).
Proof.
  revert st. induction n as [|n IH]; intros st Hfail.
  - simpl. now rewrite add_events_nil.
  - rewrite wait_ready_step.
    destruct (Hfail 0) as [msg H0]; [lia|].
    unfold attempt_answer in H0. simpl in H0. rewrite H0.
    rewrite IH; [now rewrite add_events_attempt|].
    intros j Hj. rewrite attempt_answer_next. apply Hfail. lia.
Qed.

(** The first attempt that succeeds ends the wait with its client. *)
Lemma wait_ready_success W n port st i c :
  i < n ->
  (forall j, j < i ->
             exists msg, attempt_answer W (trace st) port j = inr (ConnectionFailure msg)) ->
  attempt_answer W (trace st) port i = inl c ->
  wait_ready W n port st = (Ok (Some c), add_events (attempts_trace (S i) port) st).
Proof.
  revert st i. induction n as [|n IH]; intros st i Hi Hfail Hok; [lia|].
  rewrite wait_ready_step. destruct i as [|i].
  - unfold attempt_answer in Hok. simpl in Hok. now rewrite Hok.
  - destruct (Hfail 0) as [msg H0]; [lia|].
    unfold attempt_answer in H0. simpl in H0. rewrite H0.
    rewrite (IH _ i); [now rewrite add_events_attempt | lia | |].
    + intros j Hj. rewrite attempt_answer_next. apply Hfail. lia.
    + now rewrite attempt_answer_next.
Qed.

(** Running a computation step by step. *)
Lemma bind_ret {A B} (a : A) (f : A -> M B) st : bind (ret a) f st = f a st.
Proof. reflexivity. Qed.

Lemma bind_raise {A B} (e : exn) (f : A -> M B) st :
  bind (raise e) f st = (Raise e, st).
Proof. reflexivity. Qed.

Lemma bind_gets {A B} (g : state -> A) (f : A -> M B) st :
  bind (gets g) f st = f (g st) st.
Proof. reflexivity. Qed.

Lemma bind_modify {B} (g : state -> state) (f : unit -> M B) st :
  bind (modify g) f st = f tt (g st).
Proof. reflexivity. Qed.

Lemma bind_log {B} (e : event) (f : unit -> M B) st :
  bind (log e) f st = f tt (add_event e st).
Proof. reflexivity. Qed.

Lemma bind_call {A B} (answer : list event -> A + exn) (e : event)
    (f : A -> M B) st :
  bind (call answer e) f st
  = match answer (trace st) with
    | inl a => f a (add_event e st)
    | inr x => (Raise x, add_event e st)
    end.
Proof. unfold bind, call. now destruct (answer (trace st)). Qed.

Lemma bind_bind {A B C} (m : M A) (f : A -> M B) (g : B -> M C) st :
  bind (bind m f) g st = bind m (fun a => bind (f a) g) st.
Proof. unfold bind. now destruct (m st) as [[a|e] st']. Qed.

Lemma bind_run {A B} (m : M A) (f : A -> M B) st r st' :
  m st = (r, st') ->
  bind m f st = match r with Ok a => f a st' | Raise e => (Raise e, st') end.
Proof. intros H. unfold bind. now rewrite H. Qed.

Ltac run_steps :=
  repeat first
    [ rewrite bind_bind | rewrite bind_ret | rewrite bind_raise
    | rewrite bind_gets | rewrite bind_modify | rewrite bind_log ].

Lemma mongod_found W st out err (handler : exn -> M bool) :
  run_command W (trace st) "mongod --version" = inl (0%Z, out, err) ->
  out <> EmptyString ->
  try_catch (out <- _sys_exec W "mongod --version" ;;
             ret (negb (out =? EmptyString)%string)) handler st
  = (Ok true, add_event (EvExec "mongod --version") st).
Proof.
  intros Hrun Hout. unfold try_catch, _sys_exec.
  rewrite bind_bind, bind_call, Hrun. cbn [Z.eqb]. rewrite bind_ret.
  apply String.eqb_neq in Hout. unfold ret. now rewrite Hout.
Qed.

(** With the server found and no client yet under the alias, provisioning
    spawns the server and goes into the wait. *)
Lemma register_test_connection_spawn W port a preserved st config out err :
  run_command W (trace st) "mongod --version" = inl (0%Z, out, err) ->
  out <> EmptyString ->
  current_app W = Some config ->
  dict_get key_eqb (atom_key a) (_connections st) = None ->
  _register_test_connection W port (VAtom a) preserved st
  = match wait_ready W 3 (selected_port port) (spawned_state W config port preserved st) with
    | (Ok (Some c), st') =>
        (Ok (HClient c), set_connections (dict_set key_eqb (atom_key a) c) st')
    | (Ok None, st') => (Raise (MongoEngineConnectionError msg_test_instance), st')
    | (Raise e, st') => (Raise e, st')
    end.
Proof.
  intros Hrun Hout Happ Hconn.
  unfold _register_test_connection.
  rewrite (bind_run _ _ _ _ _ (mongod_found W st out err _ Hrun Hout)).
  rewrite Happ. cbn [hash]. run_steps.
  cbn [snd _connections add_event set_tmpdir]. rewrite Hconn. run_steps.
  fold (selected_port port).
  unfold bind.
  match goal with
  | |- context [wait_ready W 3 (selected_port port) ?s] =>
      change s with (spawned_state W config port preserved st)
  end.
  destruct (wait_ready W 3 (selected_port port)
                       (spawned_state W config port preserved st))
    as [[[c|]|e] st']; reflexivity.
Qed.

(* ================================================================== *)
(** * Properties of the specification *)
(* ================================================================== *)

Lemma get_connection_no_reconnect W alias :
  get_connection W alias false = get_or_connect W alias.
Proof. reflexivity. Qed.

(** With three booleans and a host that is no [mongomock://] URI, the
    validation raises exactly when [(not is_test and temp_db) or preserved]. *)
Lemma validate_settings_booleans is_test temp_db preserved host st :
  startswith host "mongomock://" = false ->
  _validate_settings (VBool is_test) (VBool temp_db) (VBool preserved) (VStr host) st
  = if (negb is_test && temp_db) || preserved
    then (Raise (InvalidSettingsError msg_testing), st)
    else (Ok tt, st).
Proof.
  intros Hhost. unfold _validate_settings, value_startswith, bind, ret, raise.
  rewrite Hhost. destruct is_test, temp_db, preserved; reflexivity.
Qed.

(** C1, evaluated where the code leaves it: in test mode with
    [PRESERVE_TEMP_DB] set, the validation raises [InvalidSettingsError]
    whatever [TEMP_DB] and the host are, and so does connecting with the
    configuration [temp_db_config true], in every world. *)
Theorem validate_settings_rejects_preserve_in_test_mode :
  (forall temp_db conn_host st,
      _validate_settings (VBool true) (VBool temp_db) (VBool true) conn_host st
      = (Raise (InvalidSettingsError msg_testing), st))
  /\ (forall W,
         fst (create_connection W (temp_db_config true) None initial_state)
         = Raise (InvalidSettingsError msg_testing))
  /\ (forall W,
         _connections (snd (create_connection W (temp_db_config true) None initial_state))
         = []).
Proof. repeat split. Qed.



(** C2, evaluated where the code leaves it: aliases ["a"] and ["b"] are
    registered with descriptors that agree on everything but alias, name and
    credentials (host, port and read preference are the same); both get
    connected, and each keeps the client its own [connect] returned, 0 and
    1; with the mock client class, ["b"] is left without a client. *)
Theorem sharing_pass_does_not_share :
  let st := run sample_world (CreateConnection two_aliases_config None) initial_state in
  let st_mock := run mock_world (CreateConnection two_mock_aliases_config None) initial_state in
  dict_get key_eqb (KStr "a") (_connection_settings st) = Some descriptor_a
  /\ dict_get key_eqb (KStr "b") (_connection_settings st) = Some descriptor_b
  /\ sdel "alias" (stripped descriptor_a) = sdel "alias" (stripped descriptor_b)
  /\ dict_get key_eqb (KStr "a") (_connections st) = Some 0
  /\ dict_get key_eqb (KStr "b") (_connections st) = Some 1
  /\ dict_get key_eqb (KStr "a") (_connections st_mock) = Some 100
  /\ dict_get key_eqb (KStr "b") (_connections st_mock) = None.
Proof. repeat split. Qed.

(** C3: on every reachable state, for an alias without descriptor,
    [get_connection(alias)] raises the module's [ConnectionError] (the
    error the specification calls ConnectionNotDefined) and leaves the state
    as it was; the message is [msg_no_default] exactly for the default alias,
    and no other alias can yield that message. *)
Theorem undefined_alias_is_not_defined W st a :
  reachable W st ->
  dict_mem key_eqb (atom_key a) (_connection_settings st) = false ->
  get_connection W (VAtom a) false st
  = (Raise (ConnectionError (if is_default_alias a
                             then msg_no_default else msg_undefined a)), st)
  /\ (is_default_alias a = true <-> a = AStr DEFAULT_CONNECTION_NAME)
  /\ (forall a', msg_undefined a' <> msg_no_default).
Proof.
  intros Hreach Hs. repeat split.
  - rewrite get_connection_no_reconnect. apply get_or_connect_undefined.
    + unfold dict_mem in Hs.
      now destruct (dict_get key_eqb (atom_key a) (_connection_settings st)).
    + destruct (dict_mem key_eqb (atom_key a) (_connections st)) eqn:Ec;
        [|reflexivity].
      apply reachable_registry_invariant in Hreach. destruct Hreach as [Hc _].
      apply Hc in Ec. congruence.
  - destruct a; simpl; try discriminate. intros H.
    apply String.eqb_eq in H. now subst.
  - intros ->. reflexivity.
  - intros a'. unfold msg_undefined, msg_no_default. simpl. discriminate.
Qed.

Lemma undefined_alias_is_not_defined_witness :
  get_connection sample_world (VStr "nope") false initial_state
  = (Raise (ConnectionError (msg_undefined (AStr "nope"))), initial_state)
  /\ (is_default_alias (AStr "nope") = true <-> AStr "nope" = AStr DEFAULT_CONNECTION_NAME)
  /\ (forall a', msg_undefined a' <> msg_no_default).
Proof.
  apply (undefined_alias_is_not_defined sample_world initial_state (AStr "nope")).
  - apply reachable_initial.
  - reflexivity.
Defined.

(** C4, evaluated where the code leaves it: the temporary database is up and
    the application has [PRESERVE_TEMP_DB] set; [get_connection] with
    [reconnect] closes the client and stops the server, then removes the
    temporary directory and the socket file (the teardown was handed
    [False]), and ends in the [InvalidSettingsError] of the validation,
    with no client for the alias. *)
Theorem reconnect_ignores_preserve_flag :
  let run_reconnect := get_connection sample_world default_alias true preserving_state in
  reachable sample_world preserving_state
  /\ fst (__get_app_config sample_world "PRESERVE_TEMP_DB" preserving_state)
     = Ok (VBool true)
  /\ dict_get key_eqb (KStr DEFAULT_CONNECTION_NAME) (_connections preserving_state)
     = Some 7
  /\ _tmpdir preserving_state = VStr "/tmp/tmp8xk2"
  /\ trace (snd run_reconnect)
     = [EvRemove "/tmp/mongodb-27111.sock"; EvRmtree (VStr "/tmp/tmp8xk2");
        EvWait 0; EvTerminate 0; EvClientClose 0;
        EvGetDb (AStr DEFAULT_CONNECTION_NAME)] ++ trace preserving_state
  /\ fst run_reconnect = Raise (InvalidSettingsError msg_testing)
  /\ _connections (snd run_reconnect) = [].
Proof.
  repeat split. unfold preserving_state. do 2 apply reachable_run.
  apply reachable_initial.
Qed.

(** What [get_connection] hands to the teardown on [reconnect] is the entry
    of [_connection_settings] under the key ["preserve_temp_db"], or
    [False]; the application's [PRESERVE_TEMP_DB] is not read. *)
Lemma reconnect_teardown_argument W alias st :
  dict_get key_eqb (KStr "preserve_temp_db") (_connection_settings st) = None ->
  get_connection W alias true st
  = bind (disconnect W alias (VBool false)) (fun _ => get_or_connect W alias) st.
Proof.
  intros H. unfold get_connection, set_global_attributes.
  rewrite bind_ret, bind_bind, bind_gets. now rewrite H.
Qed.

(** C5: in every state the public operations can reach, in every world, an
    alias with a client has a descriptor. *)
Theorem client_entry_implies_settings_entry W st k :
  reachable W st ->
  dict_mem key_eqb k (_connections st) = true ->
  dict_mem key_eqb k (_connection_settings st) = true.
Proof.
  intros Hreach. apply reachable_registry_invariant in Hreach.
  destruct Hreach as [Hc _]. apply Hc.
Qed.

Lemma client_entry_implies_settings_entry_witness :
  let st := run sample_world (CreateConnection two_aliases_config None) initial_state in
  dict_mem key_eqb (KStr "b") (_connection_settings st) = true.
Proof.
  apply (client_entry_implies_settings_entry sample_world
           (run sample_world (CreateConnection two_aliases_config None) initial_state)
           (KStr "b")).
  - apply reachable_run, reachable_initial.
  - reflexivity.
Defined.

(** Provisioning on its own, for an alias nobody declared, is not among
    these runs: [_register_test_connection] registers the client under
    whatever alias it is given. *)
Example provisioning_undeclared_alias :
  let st := snd (_register_test_connection sample_world (VInt 27017) (VStr "ghost")
                   (VBool false) initial_state) in
  dict_mem key_eqb (KStr "ghost") (_connections st) = true
  /\ dict_mem key_eqb (KStr "ghost") (_connection_settings st) = false.
Proof. split; reflexivity. Qed.

(** The reverse does occur: after a disconnect the descriptor stays. *)
Example settings_entry_without_client :
  let st := run sample_world (Disconnect (VStr "a") (VBool false))
              (run sample_world (CreateConnection two_aliases_config None) initial_state) in
  reachable sample_world st
  /\ dict_mem key_eqb (KStr "a") (_connection_settings st) = true
  /\ dict_mem key_eqb (KStr "a") (_connections st) = false.
Proof.
  repeat split. do 2 apply reachable_run. apply reachable_initial.
Qed.

Lemma get_app_config_object W k st config :
  _app_instance st = AppObject config ->
  __get_app_config W k st = (Ok (sget_default k (VBool false) config), st).
Proof.
  intros H. unfold __get_app_config. rewrite bind_gets. now rewrite H.
Qed.

(** Outside test mode a failure of [mongoengine.connect] leaves
    [get_connection] as it is. *)
Lemma connect_failure_is_not_wrapped W st a conn_settings host db_name e :
  dict_mem key_eqb (atom_key a) (_connections st) = false ->
  dict_get key_eqb (atom_key a) (_connection_settings st) = Some conn_settings ->
  sget "host" conn_settings = Some (VStr host) ->
  startswith host "mongomock://" = false ->
  sget "name" conn_settings = Some db_name ->
  _app_instance st = AppObject [] ->
  mongoengine_connect W (trace st) db_name (sdel "name" conn_settings) = inr e ->
  get_connection W (VAtom a) false st
  = (Raise e, add_event (EvConnect db_name (sdel "name" conn_settings)) st).
Proof.
  intros Hc Hs Hhost Hmock Hname Happ Hconnect.
  rewrite get_connection_no_reconnect.
  unfold get_or_connect. cbn [hash]. rewrite bind_ret, bind_gets. cbn [fst snd].
  rewrite Hc. cbn [negb]. unfold establish. rewrite bind_bind, bind_gets.
  cbn [fst snd]. rewrite Hs.
  unfold getitem. rewrite Hhost, Hname. run_steps.
  do 3 (rewrite (bind_run _ _ _ _ _ (get_app_config_object W _ st [] Happ));
        rewrite ?bind_bind).
  cbn [sget_default dict_get_default dict_get].
  rewrite (bind_run _ _ _ _ _
             (validate_settings_booleans false false false host st Hmock)).
  cbn [orb andb negb truthy]. unfold connect. run_steps.
  rewrite bind_call, Hconnect. reflexivity.
Qed.

(** C6, evaluated where the code leaves it: the server refuses the
    connection, [mongoengine.connect] raises, and [create_connection] ends
    in that very exception, not in the module's [ConnectionError]. *)
Theorem connect_failure_reaches_caller :
  fst (create_connection refusing_world
         (VDict [("MONGODB_HOST", VStr "localhost")]) None initial_state)
  = Raise unreachable_error
  /\ fst (get_connection refusing_world default_alias false
            (run refusing_world
               (CreateConnection (VDict [("MONGODB_HOST", VStr "localhost")]) None)
               initial_state))
     = Raise unreachable_error
  /\ (forall msg, unreachable_error <> ConnectionError msg).
Proof. repeat split. intros msg. discriminate. Qed.

(** C7: once the server is spawned, the readiness wait makes between one and
    three rounds, each a sleep of 100 ms followed by one attempt to open a
    client; if all three attempts fail with a connection failure the
    provisioning raises [mongoengine.ConnectionError] with the message
    [msg_test_instance] after the third round and registers nothing; the
    first attempt that succeeds ends the wait, and its client is
    registered under the alias and returned. *)
Theorem readiness_wait_is_bounded W port a preserved st config out err :
  run_command W (trace st) "mongod --version" = inl (0%Z, out, err) ->
  out <> EmptyString ->
  current_app W = Some config ->
  dict_get key_eqb (atom_key a) (_connections st) = None ->
  let port' := selected_port port in
  let tr0 := spawned_trace W config port preserved (trace st) in
  let run_register := _register_test_connection W port (VAtom a) preserved st in
  (exists n, 1 <= n <= 3 /\
             trace (snd run_register) = attempts_trace n port' ++ tr0)
  /\ ((forall j, j < 3 ->
         exists msg, attempt_answer W tr0 port' j = inr (ConnectionFailure msg)) ->
      fst run_register = Raise (MongoEngineConnectionError msg_test_instance)
      /\ trace (snd run_register) = attempts_trace 3 port' ++ tr0
      /\ _connections (snd run_register) = _connections st)
  /\ (forall i c,
         i < 3 ->
         (forall j, j < i ->
            exists msg, attempt_answer W tr0 port' j = inr (ConnectionFailure msg)) ->
         attempt_answer W tr0 port' i = inl c ->
         fst run_register = Ok (HClient c)
         /\ dict_get key_eqb (atom_key a) (_connections (snd run_register)) = Some c
         /\ trace (snd run_register) = attempts_trace (S i) port' ++ tr0).
Proof.
  intros Hrun Hout Happ Hconn port' tr0 run_register.
  subst run_register.
  rewrite (register_test_connection_spawn W port a preserved st config out err
             Hrun Hout Happ Hconn).
  fold port'. set (st0 := spawned_state W config port preserved st).
  assert (Htr0 : trace st0 = tr0) by reflexivity.
  repeat split.
  - destruct (wait_ready_rounds W 3 port' st0) as (m & Hm & Hpos & Heq).
    exists m. split; [lia|].
    destruct (wait_ready W 3 port' st0) as [[[c|]|e] st']; simpl in *;
      subst st'; reflexivity.
  - rewrite wait_ready_exhausted by (now rewrite Htr0). reflexivity.
  - rewrite wait_ready_exhausted by (now rewrite Htr0). reflexivity.
  - rewrite wait_ready_exhausted by (now rewrite Htr0). reflexivity.
  - rewrite (wait_ready_success W 3 port' st0 i c) by (now rewrite ?Htr0).
    reflexivity.
  - rewrite (wait_ready_success W 3 port' st0 i c) by (now rewrite ?Htr0).
    cbn [snd set_connections _connections].
    apply (dict_get_set_same key_eqb key_eqb_eq).
  - rewrite (wait_ready_success W 3 port' st0 i c) by (now rewrite ?Htr0).
    reflexivity.
Qed.

Lemma readiness_wait_is_bounded_witness :
  let port' := selected_port (VInt 27017) in
  let tr0 := spawned_trace sample_world [] (VInt 27017) (VBool false) [] in
  let run_register :=
    _register_test_connection sample_world (VInt 27017) (VStr "a") (VBool false)
                              initial_state in
  (exists n, 1 <= n <= 3 /\
             trace (snd run_register) = attempts_trace n port' ++ tr0)
  /\ ((forall j, j < 3 ->
         exists msg, attempt_answer sample_world tr0 port' j
                     = inr (ConnectionFailure msg)) ->
      fst run_register = Raise (MongoEngineConnectionError msg_test_instance)
      /\ trace (snd run_register) = attempts_trace 3 port' ++ tr0
      /\ _connections (snd run_register) = _connections initial_state)
  /\ (forall i c,
         i < 3 ->
         (forall j, j < i ->
            exists msg, attempt_answer sample_world tr0 port' j
                        = inr (ConnectionFailure msg)) ->
         attempt_answer sample_world tr0 port' i = inl c ->
         fst run_register = Ok (HClient c)
         /\ dict_get key_eqb (KStr "a") (_connections (snd run_register)) = Some c
         /\ trace (snd run_register) = attempts_trace (S i) port' ++ tr0).
Proof.
  apply (readiness_wait_is_bounded sample_world (VInt 27017) (AStr "a")
           (VBool false) initial_state [] "db version v3.0.15" EmptyString).
  - reflexivity.
  - discriminate.
  - reflexivity.
  - reflexivity.
Defined.

(** In the sample world the first attempt succeeds: one round, client 7
    registered and returned. *)
Example provisioning_first_attempt :
  let run_register :=
    _register_test_connection sample_world (VInt 27017) (VStr "a") (VBool false)
                              initial_state in
  fst run_register = Ok (HClient 7)
  /\ _connections (snd run_register) = [(KStr "a", 7)]
  /\ trace (snd run_register)
     = attempts_trace 1 (VInt 27111)
         ++ spawned_trace sample_world [] (VInt 27017) (VBool false) [].
Proof. repeat split. Qed.

(* ================================================================== *)
(** * Further properties: settings resolution *)
(* ================================================================== *)

Lemma sget_set_default k k' default r :
  sget k (set_default k' default r)
  = if (k =? k')%string then Some (sget_default k' default r) else sget k r.
Proof. unfold set_default. apply sget_sset. Qed.

Lemma sget_default_set_default k k' default default' r :
  (k =? k')%string = false ->
  sget_default k default (set_default k' default' r) = sget_default k default r.
Proof.
  intros H. unfold sget_default, dict_get_default. fold sget.
  now rewrite sget_set_default, H.
Qed.

Lemma sget_resolve_name k r :
  sget k (resolve_name r)
  = if (k =? "name")%string then Some (name_of r)
    else if (k =? "db")%string then None else sget k r.
Proof.
  unfold resolve_name, name_of. destruct (sget "db" r) as [db|] eqn:Edb.
  - rewrite sget_sset, sget_sdel. reflexivity.
  - rewrite sget_sset. destruct (k =? "name")%string; [reflexivity|].
    destruct (String.eqb_spec k "db") as [->|]; auto.
Qed.

Lemma sget_resolve_defaults k r :
  sget k (resolve_defaults r)
  = if (k =? "read_preference")%string
    then Some (sget_default "read_preference" PRIMARY r)
    else if (k =? "username")%string then Some (sget_default "username" VNone r)
    else if (k =? "port")%string then Some (sget_default "port" (VInt 27017) r)
    else if (k =? "host")%string
         then Some (sget_default "host" (VStr "localhost") r)
    else if (k =? "alias")%string
         then Some (sget_default "alias" (VStr DEFAULT_CONNECTION_NAME) r)
    else sget k r.
Proof.
  unfold resolve_defaults. rewrite !sget_set_default.
  now rewrite !sget_default_set_default by reflexivity.
Qed.

Lemma sget_resolve_replicaset k r :
  sget k (resolve_replicaset r)
  = if (k =? "replicaSet")%string
    then match sget "replicaset" r with
         | Some rs => Some rs
         | None => sget "replicaSet" r
         end
    else if (k =? "replicaset")%string then None else sget k r.
Proof.
  unfold resolve_replicaset. destruct (sget "replicaset" r) as [rs|] eqn:E.
  - rewrite sget_sset, sget_sdel. reflexivity.
  - destruct (String.eqb_spec k "replicaSet") as [->|]; [reflexivity|].
    destruct (String.eqb_spec k "replicaset") as [->|]; auto.
Qed.

Lemma sget_resolve_password k rp r :
  sget k (resolve_password rp r)
  = if rp && (k =? "password")%string then None else sget k r.
Proof.
  unfold resolve_password. destruct rp; [|reflexivity].
  rewrite sget_sdel. reflexivity.
Qed.

Lemma resolve_loop_lowkeys p items : lowkeys (resolve_loop p items).
Proof.
  destruct (resolve_loop_inv p items []) as [H _]; [intros k [] | constructor | exact H].
Qed.

Lemma resolve_loop_NoDup p items : NoDup (keys (resolve_loop p items)).
Proof.
  destruct (resolve_loop_inv p items []) as [_ H]; [intros k [] | constructor | exact H].
Qed.

(** Every entry of a resolved descriptor, read off the extracted mapping. *)
Lemma sget_resolve_dict p rp items k :
  sget k (resolve_dict p rp items)
  = let r := resolve_loop p items in
    if rp && (k =? "password")%string then None
    else if (k =? "replicaSet")%string then sget "replicaset" r
    else if (k =? "replicaset")%string then None
    else if (k =? "read_preference")%string
         then Some (sget_default "read_preference" PRIMARY r)
    else if (k =? "username")%string then Some (sget_default "username" VNone r)
    else if (k =? "port")%string then Some (sget_default "port" (VInt 27017) r)
    else if (k =? "host")%string
         then Some (sget_default "host" (VStr "localhost") r)
    else if (k =? "alias")%string
         then Some (sget_default "alias" (VStr DEFAULT_CONNECTION_NAME) r)
    else if (k =? "name")%string then Some (name_of r)
    else if (k =? "db")%string then None
    else sget k r.
Proof.
  cbv zeta. unfold resolve_dict. set (r := resolve_loop p items).
  assert (Hrs : sget "replicaSet" r = None).
  { apply lowkeys_absent; [apply resolve_loop_lowkeys | discriminate]. }
  rewrite sget_resolve_password. destruct (rp && (k =? "password")%string); [reflexivity|].
  rewrite sget_resolve_replicaset.
  rewrite !sget_resolve_defaults. cbn [String.eqb Ascii.eqb Bool.eqb].
  rewrite !sget_resolve_name. cbn [String.eqb Ascii.eqb Bool.eqb].
  rewrite Hrs.
  destruct (k =? "replicaSet")%string; [now destruct (sget "replicaset" r)|].
  destruct (k =? "replicaset")%string; [reflexivity|].
  unfold sget_default, dict_get_default. fold sget.
  rewrite !sget_resolve_name. cbn [String.eqb Ascii.eqb Bool.eqb].
  reflexivity.
Qed.

Lemma NoDup_resolve_dict p rp items : NoDup (keys (resolve_dict p rp items)).
Proof.
  unfold resolve_dict, resolve_password, resolve_replicaset, resolve_defaults,
    set_default, resolve_name.
  pose proof (resolve_loop_NoDup p items) as H.
  destruct (sget "db" (resolve_loop p items));
    match goal with
    | |- context [sget "replicaset" ?B] => destruct (sget "replicaset" B)
    end;
    destruct rp; repeat first [apply NoDup_sdel | apply NoDup_sset]; exact H.
Qed.

(** X1: a resolved mapping has no ["password"] entry when [remove_pass] is
    set, and keeps the extracted one, if any, when it is not. *)
Theorem resolved_password_entry kv items p :
  (exists d, _resolve_settings (VDict (kv :: items)) p true = VDict d
             /\ sget "password" d = None)
  /\ (exists d, _resolve_settings (VDict (kv :: items)) p false = VDict d
                /\ sget "password" d
                   = sget "password" (resolve_loop p (kv :: items))).
Proof.
  split; eexists; (split; [reflexivity|]); now rewrite sget_resolve_dict.
Qed.

(** X2: whatever the non-empty mapping and the prefix, the resolved mapping
    has distinct keys, carries ["name"], ["alias"], ["host"], ["port"],
    ["username"] and ["read_preference"], and has neither a ["db"] nor a
    ["replicaset"] entry. *)
Theorem resolved_descriptor_complete kv items p remove_pass :
  exists d,
    _resolve_settings (VDict (kv :: items)) p remove_pass = VDict d
    /\ NoDup (keys d)
    /\ smem "name" d = true /\ smem "alias" d = true /\ smem "host" d = true
    /\ smem "port" d = true /\ smem "username" d = true
    /\ smem "read_preference" d = true
    /\ sget "db" d = None /\ sget "replicaset" d = None.
Proof.
  eexists. split; [reflexivity|]. split; [apply NoDup_resolve_dict|].
  unfold smem, dict_mem. fold sget.
  rewrite !sget_resolve_dict. cbn [String.eqb Ascii.eqb Bool.eqb].
  rewrite !andb_false_r. repeat split.
Qed.

(** X3: the ["name"] of a resolved mapping is the extracted ["db"] entry, or
    ["test"] when there is none; an extracted ["name"] entry is not used. *)
Theorem resolved_name_from_db kv items p remove_pass :
  exists d,
    _resolve_settings (VDict (kv :: items)) p remove_pass = VDict d
    /\ sget "name" d = Some (name_of (resolve_loop p (kv :: items)))
    /\ (sget "db" (resolve_loop p (kv :: items)) = None ->
        sget "name" d = Some (VStr "test")).
Proof.
  eexists. split; [reflexivity|].
  rewrite sget_resolve_dict. cbn [String.eqb Ascii.eqb Bool.eqb].
  rewrite andb_false_r. split; [reflexivity|].
  intros H. unfold name_of. now rewrite H.
Qed.

(** X4: ["alias"], ["host"], ["port"], ["username"] and ["read_preference"]
    keep the extracted value when there is one, and get the default
    otherwise. *)
Theorem resolved_defaults_fill_gaps kv items p remove_pass :
  exists d,
    let r := resolve_loop p (kv :: items) in
    _resolve_settings (VDict (kv :: items)) p remove_pass = VDict d
    /\ sget "alias" d = Some (sget_default "alias" (VStr DEFAULT_CONNECTION_NAME) r)
    /\ sget "host" d = Some (sget_default "host" (VStr "localhost") r)
    /\ sget "port" d = Some (sget_default "port" (VInt 27017) r)
    /\ sget "username" d = Some (sget_default "username" VNone r)
    /\ sget "read_preference" d = Some (sget_default "read_preference" PRIMARY r).
Proof.
  eexists. cbv zeta. split; [reflexivity|].
  rewrite !sget_resolve_dict. cbn [String.eqb Ascii.eqb Bool.eqb].
  rewrite !andb_false_r. repeat split.
Qed.

(** X5: an extracted ["replicaset"] entry is found under ["replicaSet"] in
    the resolved mapping, which has a ["replicaSet"] entry in no other
    case. *)
Theorem resolved_replicaset_renamed kv items p remove_pass :
  exists d,
    _resolve_settings (VDict (kv :: items)) p remove_pass = VDict d
    /\ sget "replicaSet" d = sget "replicaset" (resolve_loop p (kv :: items))
    /\ sget "replicaset" d = None.
Proof.
  eexists. split; [reflexivity|].
  rewrite !sget_resolve_dict. cbn [String.eqb Ascii.eqb Bool.eqb].
  rewrite !andb_false_r. split; reflexivity.
Qed.

Lemma resolve_loop_snoc p items kv :
  resolve_loop p (items ++ [kv]) = resolve_item p (resolve_loop p items) kv.
Proof. unfold resolve_loop. now rewrite fold_left_app. Qed.

(** X6: when several items are stored under one key (keys that differ in
    letter case only), the last of them gives the value. *)
Theorem extracted_last_item_wins p items k :
  sget k (resolve_loop p items)
  = option_map snd (find (stored_under p k) (rev items)).
Proof.
  induction items as [|[k0 v0] items IH] using rev_ind; [reflexivity|].
  rewrite resolve_loop_snoc, rev_app_distr. cbn [rev app find].
  rewrite resolve_item_key. unfold stored_under at 1. cbn [fst].
  destruct (resolved_key p k0) as [k'|]; [|exact IH].
  rewrite sget_sset, String.eqb_sym.
  destruct (k' =? k)%string; [reflexivity | exact IH].
Qed.

(** X7: an extracted entry under any other key than the ones resolution
    deals with itself is handed through unchanged, and nothing else
    appears under such a key. *)
Theorem resolved_other_keys_pass_through kv items p remove_pass k :
  ~ In k reserved_keys ->
  exists d,
    _resolve_settings (VDict (kv :: items)) p remove_pass = VDict d
    /\ sget k d = sget k (resolve_loop p (kv :: items)).
Proof.
  intros Hk. eexists. split; [reflexivity|].
  rewrite sget_resolve_dict. cbv zeta.
  assert (Hne : forall k', In k' reserved_keys -> (k =? k')%string = false).
  { intros k' Hin. apply String.eqb_neq. intros ->. contradiction. }
  rewrite !Hne by (simpl; tauto). now rewrite andb_false_r.
Qed.

Lemma resolved_other_keys_pass_through_witness :
  exists d,
    _resolve_settings
      (VDict [("MONGODB_HOST", VStr "h"); ("MONGODB_CONNECT", VBool false);
              ("MONGODB_connect", VBool true)])
      (Some "MONGODB_") true = VDict d
    /\ sget "connect" d
       = sget "connect"
           (resolve_loop (Some "MONGODB_")
              [("MONGODB_HOST", VStr "h"); ("MONGODB_CONNECT", VBool false);
               ("MONGODB_connect", VBool true)]).
Proof.
  apply (resolved_other_keys_pass_through
           ("MONGODB_HOST", VStr "h")
           [("MONGODB_CONNECT", VBool false); ("MONGODB_connect", VBool true)]
           (Some "MONGODB_") true "connect").
  intros H. simpl in H. repeat (destruct H as [H|H]; [discriminate|]). exact H.
Defined.

Lemma resolve_loop_strip_prefix c p items acc :
  fold_left (resolve_item (Some (String c p))) items acc
  = fold_left (resolve_item None) (strip_prefix (String c p) items) acc.
Proof.
  revert acc. induction items as [|[k v] items IH]; intros acc; [reflexivity|].
  cbn [fold_left]. rewrite IH. unfold strip_prefix. cbn [filter fst].
  rewrite resolve_item_key. unfold resolved_key. cbn [prefix_given].
  destruct (startswith k (String c p)); reflexivity.
Qed.

(** X8: resolving with a non-empty prefix is resolving without prefix the
    items that carry it, with the prefix cut off their keys; the other
    items have no influence. *)
Theorem resolve_with_prefix_strips kv items c p remove_pass :
  _resolve_settings (VDict (kv :: items)) (Some (String c p)) remove_pass
  = VDict (resolve_dict None remove_pass (strip_prefix (String c p) (kv :: items))).
Proof.
  cbn [_resolve_settings]. unfold resolve_dict, resolve_loop.
  now rewrite resolve_loop_strip_prefix.
Qed.

Lemma resolve_loop_lower_keys items acc :
  fold_left (resolve_item None) (lower_keys items) acc
  = fold_left (resolve_item None) items acc.
Proof.
  revert acc. induction items as [|[k v] items IH]; intros acc; [reflexivity|].
  cbn [lower_keys map fold_left fst snd]. fold (lower_keys items).
  rewrite IH. unfold resolve_item. cbn [prefix_given]. now rewrite lower_idem.
Qed.

(** X9: without a prefix the letter case of the keys does not matter:
    a mapping and the same mapping with lower-case keys resolve alike. *)
Theorem resolve_ignores_key_case settings_items remove_pass :
  _resolve_settings (VDict (lower_keys settings_items)) None remove_pass
  = _resolve_settings (VDict settings_items) None remove_pass.
Proof.
  destruct settings_items as [|[k v] items]; [reflexivity|].
  cbn [lower_keys map _resolve_settings]. fold (lower_keys items).
  unfold resolve_dict, resolve_loop.
  now rewrite (resolve_loop_lower_keys ((k, v) :: items)).
Qed.

(* ================================================================== *)
(** * Further properties: the registry of descriptors *)
(* ================================================================== *)

Section SettingsOnly.
Variable W : World.
Variable Q : list (key * dict) -> list (key * client) -> Prop.
Hypothesis Q_clients : forall s c c', Q s c -> Q s c'.

Ltac preserve_settings :=
  repeat first
    [ apply preserves_set_connections; intros ? ? ?; eapply Q_clients; eassumption
    | progress preserve_more ].

Lemma settings_register_test_connection port db_alias preserved :
  preserves (on_registry Q) (_register_test_connection W port db_alias preserved).
Proof.
  unfold _register_test_connection. preserve_settings.
  - apply preserves_sys_exec.
  - apply preserves_wait_ready.
Qed.

Lemma settings_connect k db_name conn_settings :
  preserves (on_registry Q) (connect W k db_name conn_settings).
Proof. unfold connect. preserve_settings. Qed.

Lemma settings_establish alias :
  preserves (on_registry Q) (establish W alias).
Proof.
  unfold establish. preserve_settings;
    first [apply settings_register_test_connection | apply settings_connect].
Qed.

Lemma settings_share_loop items alias connection_class conn_settings connection :
  preserves (on_registry Q)
            (share_loop W items alias connection_class conn_settings connection).
Proof.
  induction items as [|[db_alias settings] items IH]; cbn [share_loop];
    preserve_settings; exact IH.
Qed.

Lemma settings_get_or_connect alias :
  preserves (on_registry Q) (get_or_connect W alias).
Proof.
  unfold get_or_connect, share_connections. preserve_settings;
    first [ apply preserves_get_db_handle | apply settings_establish
          | apply settings_share_loop ].
Qed.

Lemma settings_disconnect alias preserved :
  preserves (on_registry Q) (disconnect W alias preserved).
Proof.
  unfold disconnect, set_global_attributes. preserve_settings.
  apply settings_get_or_connect.
Qed.

Lemma settings_get_connection alias reconnect :
  preserves (on_registry Q) (get_connection W alias reconnect).
Proof.
  unfold get_connection, set_global_attributes. preserve_settings;
    first [apply settings_disconnect | apply settings_get_or_connect].
Qed.

Hypothesis Q_settings : forall s c k d, Q s c -> Q (dict_set key_eqb k d s) c.

Lemma settings_create_all conn_settings connections :
  preserves (on_registry Q) (create_all W conn_settings connections).
Proof.
  revert connections.
  induction conn_settings as [|conn_setting rest IH]; intros connections;
    cbn [create_all]; preserve_settings;
    first [ apply preserves_set_connection_settings; intros; now apply Q_settings
          | apply settings_get_connection | apply IH ].
Qed.

Lemma settings_create_connection config app :
  preserves (on_registry Q) (create_connection W config app).
Proof.
  unfold create_connection. preserve_settings;
    first [ apply preserves_set_connection_settings; intros; now apply Q_settings
          | apply settings_get_connection | apply settings_create_all ].
Qed.

End SettingsOnly.


(** X11: no public operation removes a descriptor: an alias that has one
    still has one after any operation, whether it returned or raised. *)
Theorem descriptors_are_never_removed W op st k :
  dict_mem key_eqb k (_connection_settings st) = true ->
  dict_mem key_eqb k (_connection_settings (run W op st)) = true.
Proof.
  intros H. destruct op; cbn [run].
  - apply (settings_create_connection W
             (fun s _ => dict_mem key_eqb k s = true)); auto.
    intros s c k' d. apply mem_set_settings.
  - apply (settings_get_connection W (fun s _ => dict_mem key_eqb k s = true)); auto.
  - apply (settings_disconnect W (fun s _ => dict_mem key_eqb k s = true)); auto.
  - apply (preserves_get_db W (fun s _ => dict_mem key_eqb k s = true)); auto.
Qed.

Lemma descriptors_are_never_removed_witness :
  dict_mem key_eqb (KStr "a")
    (_connection_settings
       (run sample_world (CreateConnection (temp_db_config true) None)
          (run sample_world (CreateConnection two_aliases_config None)
             initial_state)))
  = true.
Proof.
  apply (descriptors_are_never_removed sample_world
           (CreateConnection (temp_db_config true) None)
           (run sample_world (CreateConnection two_aliases_config None) initial_state)
           (KStr "a")).
  reflexivity.
Defined.

(* ================================================================== *)
(** * Further properties: validation *)
(* ================================================================== *)

Lemma validate_settings_state is_test temp_db preserved conn_host st :
  snd (_validate_settings is_test temp_db preserved conn_host st) = st.
Proof.
  apply (preserves_validate_settings (fun st' => st' = st)). reflexivity.
Qed.

(** X12: the validation changes nothing, and it lets pass exactly these
    settings: [preserved] is [False], and either [is_test] is [True] and
    [temp_db] a boolean, or [is_test] and [temp_db] are [False] and the host
    is a string that does not start with [mongomock://]. *)
Theorem validate_settings_accepts is_test temp_db preserved conn_host st :
  snd (_validate_settings is_test temp_db preserved conn_host st) = st
  /\ (fst (_validate_settings is_test temp_db preserved conn_host st) = Ok tt
      <-> preserved = VBool false
          /\ ((is_test = VBool true /\ is_boolean temp_db = true)
              \/ (is_test = VBool false /\ temp_db = VBool false
                  /\ exists host, conn_host = VStr host
                                  /\ startswith host "mongomock://" = false))).
Proof.
  split; [apply validate_settings_state|].
  destruct is_test as [[| it | |  | ]| |];
    try (split; [discriminate | intros [_ [[H _]|[H _]]]; discriminate]).
  destruct temp_db as [[| td | |  | ]| |];
    try (split; [discriminate
                | intros [_ [[_ H]|[_ [H _]]]]; discriminate]).
  destruct preserved as [[| pr | |  | ]| |];
    try (split; [discriminate | intros [H _]; discriminate]).
  destruct it.
  - destruct td, pr; simpl; split; try discriminate; auto;
      try (intros [H _]; discriminate).
  - destruct conn_host as [[| | | host | ]| |];
      try (destruct td, pr; simpl; (split; [discriminate|]);
           intros [_ [[H _]|[_ [_ (h & H & _)]]]]; discriminate H).
    unfold _validate_settings, value_startswith, bind, ret, raise. cbn [negb].
    destruct (startswith host "mongomock://") eqn:Eh; cbn [andb orb fst].
    + split; [discriminate|].
      intros [_ [[H _]|[_ [_ (h & H & Hh)]]]]; [discriminate|].
      inversion H; subst. congruence.
    + destruct td, pr; cbn [orb fst]; split; try discriminate;
        try (intros [H _]; discriminate H);
        try (intros [_ [[H _]|[_ [H _]]]]; discriminate H);
        try reflexivity.
      intros _. split; [reflexivity|]. right. repeat split. eauto.
Qed.

(** X13: when one of [TESTING], [TEMP_DB] and [PRESERVE_TEMP_DB] is not a
    boolean, the validation raises [InvalidSettingsError] with the message
    about boolean values, whatever the host is. *)
Theorem validate_settings_non_boolean is_test temp_db preserved conn_host st :
  is_boolean is_test && is_boolean temp_db && is_boolean preserved = false ->
  _validate_settings is_test temp_db preserved conn_host st
  = (Raise (InvalidSettingsError msg_booleans), st).
Proof.
  intros H.
  destruct is_test as [[| it | |  | ]| |]; try reflexivity.
  destruct temp_db as [[| td | |  | ]| |]; try reflexivity.
  destruct preserved as [[| pr | |  | ]| |]; try reflexivity.
  discriminate.
Qed.

Lemma validate_settings_non_boolean_witness :
  _validate_settings (VInt 1) (VBool false) (VBool false) (VStr "localhost")
                     initial_state
  = (Raise (InvalidSettingsError msg_booleans), initial_state).
Proof. apply validate_settings_non_boolean. reflexivity. Defined.

(** X14: outside test mode a host that starts with [mongomock://] is
    refused with [InvalidURI], whatever [TEMP_DB] and [PRESERVE_TEMP_DB]
    say. *)
Theorem validate_settings_mock_outside_test temp_db preserved rest st :
  _validate_settings (VBool false) (VBool temp_db) (VBool preserved)
                     (VStr ("mongomock://" ++ rest)) st
  = (Raise (InvalidURI msg_mongomock), st).
Proof. destruct rest; reflexivity. Qed.

(* ================================================================== *)
(** * Further properties: getting and disconnecting *)
(* ================================================================== *)

Lemma get_db_handle_run W a st :
  get_db_handle W a st
  = match mongoengine_get_db W (trace st) a with
    | inl db => (Ok (HDatabase db), add_event (EvGetDb a) st)
    | inr e => (Raise e, add_event (EvGetDb a) st)
    end.
Proof.
  unfold get_db_handle. rewrite bind_call.
  now destruct (mongoengine_get_db W (trace st) a).
Qed.

Lemma get_or_connect_connected W a st :
  dict_mem key_eqb (atom_key a) (_connections st) = true ->
  get_or_connect W (VAtom a) st = get_db_handle W a st.
Proof.
  intros H. unfold get_or_connect. cbn [hash].
  rewrite bind_ret, bind_gets. cbn [fst snd]. now rewrite H.
Qed.

(** X15: for an alias that has a client, [get_connection(alias)] only asks
    the library for the database handle: no validation, no connect, no
    change to the registry, the server process or the temporary directory,
    whatever the application flags are. *)
Theorem get_connection_reuses_client W a st :
  dict_mem key_eqb (atom_key a) (_connections st) = true ->
  get_connection W (VAtom a) false st
  = match mongoengine_get_db W (trace st) a with
    | inl db => (Ok (HDatabase db), add_event (EvGetDb a) st)
    | inr e => (Raise e, add_event (EvGetDb a) st)
    end.
Proof.
  intros H. rewrite get_connection_no_reconnect, get_or_connect_connected by exact H.
  apply get_db_handle_run.
Qed.

Lemma get_connection_reuses_client_witness :
  get_connection sample_world (VStr "a") false
    (run sample_world (CreateConnection two_aliases_config None) initial_state)
  = (Ok (HDatabase {| db_id := 0; db_client := Some 0 |}),
     add_event (EvGetDb (AStr "a"))
       (run sample_world (CreateConnection two_aliases_config None) initial_state)).
Proof.
  apply (get_connection_reuses_client sample_world (AStr "a")
           (run sample_world (CreateConnection two_aliases_config None) initial_state)).
  reflexivity.
Defined.

Lemma disconnect_no_client_run W a preserved st :
  dict_mem key_eqb (atom_key a) (_connections st) = false ->
  truthy preserved = true ->
  disconnect W (VAtom a) preserved st = (Ok tt, stop_process st).
Proof.
  intros Hmem Hpres. unfold disconnect, stop_process. cbn [hash].
  rewrite bind_ret, bind_gets. cbn [fst snd]. rewrite Hmem.
  rewrite bind_ret, bind_gets.
  destruct (_process st) as [p|]; run_steps; rewrite Hpres; reflexivity.
Qed.

(** X16: [disconnect] for an alias that has no client, called with a true
    [preserved], returns; it still terminates the tracked server process,
    if there is one, waits for it and forgets it, and does nothing else. *)
Theorem disconnect_without_client W a preserved st :
  dict_mem key_eqb (atom_key a) (_connections st) = false ->
  truthy preserved = true ->
  disconnect W (VAtom a) preserved st = (Ok tt, stop_process st).
Proof. apply disconnect_no_client_run. Qed.

Lemma disconnect_without_client_witness :
  disconnect sample_world (VStr "nope") (VBool true) preserving_state
  = (Ok tt, stop_process preserving_state).
Proof.
  apply (disconnect_without_client sample_world (AStr "nope") (VBool true)
           preserving_state); reflexivity.
Defined.

(** What [disconnect] leaves alone, and what holds when it returns. *)
Lemma disconnect_frame W a preserved st :
  _tmpdir (snd (disconnect W (VAtom a) preserved st)) = _tmpdir st
  /\ _app_instance (snd (disconnect W (VAtom a) preserved st)) = _app_instance st
  /\ (forall k, k <> atom_key a ->
        dict_get key_eqb k (_connections (snd (disconnect W (VAtom a) preserved st)))
        = dict_get key_eqb k (_connections st))
  /\ (fst (disconnect W (VAtom a) preserved st) = Ok tt ->
      dict_mem key_eqb (atom_key a)
               (_connections (snd (disconnect W (VAtom a) preserved st))) = false
      /\ _process (snd (disconnect W (VAtom a) preserved st)) = None).
Proof.
  pose proof (dict_get_del_same key_eqb (atom_key a) (_connections st)) as Hsame.
  pose proof (fun k Hk => dict_get_del_other key_eqb key_eqb_eq k (atom_key a)
                            (_connections st) Hk) as Hother.
  unfold dict_del in Hsame, Hother.
  unfold disconnect, set_global_attributes. cbn [hash].
  rewrite bind_ret, bind_gets. cbn [fst snd].
  destruct (dict_mem key_eqb (atom_key a) (_connections st)) eqn:Emem.
  - run_steps.
    pose proof (get_or_connect_connected W a st Emem) as Hget.
    rewrite get_db_handle_run in Hget.
    destruct (mongoengine_get_db W (trace st) a) as [db|e];
      rewrite (bind_run _ _ _ _ _ Hget).
    + destruct (db_client db) as [c|]; run_steps;
        cbn [_process add_event set_connections];
        (destruct (_process st) as [p|] eqn:Ep; run_steps;
         cbn [_tmpdir add_event set_connections set_process];
         (destruct (negb (truthy preserved) && truthy (_tmpdir st)); run_steps;
          [ repeat match goal with
                   | |- context [if ?b then _ else _] => destruct b; run_steps
                   | |- context [match ?r with Some _ => _ | None => _ end] =>
                       destruct r; run_steps
                   end
          | ]);
         unfold ret, raise; cbn;
         (repeat split; try discriminate; try reflexivity; try assumption;
          try (intros k Hk; exact (Hother k Hk));
          try (unfold dict_mem; now rewrite Hsame))).
    + cbn. repeat split; try discriminate.
  - rewrite bind_ret, bind_gets.
    destruct (_process st) as [p|] eqn:Ep; run_steps;
      cbn [_tmpdir add_event set_connections set_process];
      (destruct (negb (truthy preserved) && truthy (_tmpdir st)); run_steps;
       [ repeat match goal with
                | |- context [if ?b then _ else _] => destruct b; run_steps
                | |- context [match ?r with Some _ => _ | None => _ end] =>
                    destruct r; run_steps
                end
       | ]);
      unfold ret, raise; cbn;
      (repeat split; try discriminate; try reflexivity; try assumption).
Qed.

(** X17: whether it returns or raises, [disconnect] leaves [_tmpdir]
    (the path stays tracked after its removal), [_app_instance] and the
    clients of all other aliases as they are; when it returns, the alias
    has no client and no server process is tracked. *)
Theorem disconnect_only_drops_its_alias W a preserved st :
  _tmpdir (snd (disconnect W (VAtom a) preserved st)) = _tmpdir st
  /\ _app_instance (snd (disconnect W (VAtom a) preserved st)) = _app_instance st
  /\ (forall k, k <> atom_key a ->
        dict_get key_eqb k (_connections (snd (disconnect W (VAtom a) preserved st)))
        = dict_get key_eqb k (_connections st))
  /\ (fst (disconnect W (VAtom a) preserved st) = Ok tt ->
      dict_mem key_eqb (atom_key a)
               (_connections (snd (disconnect W (VAtom a) preserved st))) = false
      /\ _process (snd (disconnect W (VAtom a) preserved st)) = None).
Proof. apply disconnect_frame. Qed.

(** X18: after a [disconnect] that returned, a second [disconnect] of the
    same alias with a true [preserved] returns and changes nothing. *)
Theorem disconnect_again_is_noop W a preserved preserved' st :
  fst (disconnect W (VAtom a) preserved st) = Ok tt ->
  truthy preserved' = true ->
  disconnect W (VAtom a) preserved' (snd (disconnect W (VAtom a) preserved st))
  = (Ok tt, snd (disconnect W (VAtom a) preserved st)).
Proof.
  intros Hok Hpres.
  destruct (disconnect_frame W a preserved st) as (_ & _ & _ & Hpost).
  destruct (Hpost Hok) as [Hmem Hproc].
  rewrite disconnect_no_client_run by assumption.
  unfold stop_process. now rewrite Hproc.
Qed.

Lemma disconnect_again_is_noop_witness :
  disconnect sample_world (VStr "a") (VBool true)
    (snd (disconnect sample_world (VStr "a") (VBool false)
            (run sample_world (CreateConnection two_aliases_config None)
               initial_state)))
  = (Ok tt,
     snd (disconnect sample_world (VStr "a") (VBool false)
            (run sample_world (CreateConnection two_aliases_config None)
               initial_state))).
Proof.
  apply (disconnect_again_is_noop sample_world (AStr "a") (VBool false) (VBool true)
           (run sample_world (CreateConnection two_aliases_config None) initial_state));
    reflexivity.
Defined.

(* ================================================================== *)
(** * Further properties: provisioning *)
(* ================================================================== *)

Lemma register_test_connection_announce W port db_alias preserved st config out err :
  run_command W (trace st) "mongod --version" = inl (0%Z, out, err) ->
  out <> EmptyString ->
  current_app W = Some config ->
  _register_test_connection W port db_alias preserved st
  = bind (hash db_alias)
      (fun ak =>
         conns <- gets _connections ;;
         match dict_get key_eqb (snd ak) conns with
         | Some _conn => ret (HClient _conn)
         | None =>
             p <- gets (fun st => spawn W (trace st)) ;;
             log (EvPopen (selected_port port) (temp_db_loc W config (trace st))) ;;
             modify (set_process (Some p)) ;;
             log (EvAtexit preserved) ;;
             r <- wait_ready W 3 (selected_port port) ;;
             match r with
             | None => raise (MongoEngineConnectionError msg_test_instance)
             | Some _conn =>
                 modify (set_connections (dict_set key_eqb (snd ak) _conn)) ;;
                 ret (HClient _conn)
             end
         end)
      (announced_state W config port st).
Proof.
  intros Hrun Hout Happ. unfold _register_test_connection.
  rewrite (bind_run _ _ _ _ _ (mongod_found W st out err _ Hrun Hout)).
  rewrite Happ. run_steps. reflexivity.
Qed.

(** X19: when the alias already has a client, provisioning returns that
    client: it spawns no server, opens no client and registers no exit
    hook; it does create a temporary directory again and track it in
    [_tmpdir]. *)
Theorem provisioning_returns_registered_client W port a preserved st config out err c :
  run_command W (trace st) "mongod --version" = inl (0%Z, out, err) ->
  out <> EmptyString ->
  current_app W = Some config ->
  dict_get key_eqb (atom_key a) (_connections st) = Some c ->
  _register_test_connection W port (VAtom a) preserved st
  = (Ok (HClient c), announced_state W config port st).
Proof.
  intros Hrun Hout Happ Hconn.
  rewrite (register_test_connection_announce W port (VAtom a) preserved st
             config out err Hrun Hout Happ).
  cbn [hash]. rewrite bind_ret, bind_gets. cbn [snd announced_state _connections].
  now rewrite Hconn.
Qed.

Lemma provisioning_returns_registered_client_witness :
  _register_test_connection sample_world (VInt 27017) default_alias (VBool false)
    (run sample_world (CreateConnection (temp_db_config false) None) initial_state)
  = (Ok (HClient 7),
     announced_state sample_world [] (VInt 27017)
       (run sample_world (CreateConnection (temp_db_config false) None) initial_state)).
Proof.
  apply (provisioning_returns_registered_client sample_world (VInt 27017)
           (AStr DEFAULT_CONNECTION_NAME) (VBool false)
           (run sample_world (CreateConnection (temp_db_config false) None) initial_state)
           [] "db version v3.0.15" EmptyString 7).
  - reflexivity.
  - discriminate.
  - reflexivity.
  - reflexivity.
Defined.

(** X20: when the probe [mongod --version] raises, whatever the exception,
    or ends with a return code other than 0, provisioning raises
    [RuntimeError] with the message that MongoDB must be installed, and
    has done nothing but the probe. *)
Theorem provisioning_without_mongod W port db_alias preserved st :
  probe_failed (run_command W (trace st) "mongod --version") = true ->
  _register_test_connection W port db_alias preserved st
  = (Raise (RuntimeError msg_need_mongod), add_event (EvExec "mongod --version") st).
Proof.
  intros H. unfold _register_test_connection, _sys_exec, bind at 1, try_catch.
  rewrite bind_bind, bind_call.
  destruct (run_command W (trace st) "mongod --version") as [[[rc out] err]|e];
    [|reflexivity].
  cbn [probe_failed] in H. destruct (rc =? 0)%Z; [discriminate|]. reflexivity.
Qed.

Lemma provisioning_without_mongod_witness :
  let W := {| current_app := Some [];
              mongoengine_VERSION_lt_0_10_6 := false;
              mongomock_importable := false;
              mongoengine_connect := mongoengine_connect sample_world;
              mongoengine_get_db := mongoengine_get_db sample_world;
              mongomock_MongoClient := mongomock_MongoClient sample_world;
              pymongo_MongoClient := pymongo_MongoClient sample_world;
              run_command := fun _ _ => inl (127%Z, EmptyString, "mongod: not found");
              spawn := spawn sample_world;
              tempfile_mkdtemp := tempfile_mkdtemp sample_world;
              tempfile_gettempdir := "/tmp";
              os_path_exists := os_path_exists sample_world;
              os_remove := os_remove sample_world |} in
  _register_test_connection W (VInt 27017) (VStr "a") (VBool false) initial_state
  = (Raise (RuntimeError msg_need_mongod),
     add_event (EvExec "mongod --version") initial_state).
Proof.
  intros W.
  apply (provisioning_without_mongod W (VInt 27017) (VStr "a") (VBool false)
           initial_state).
  reflexivity.
Defined.

(** X21: when the probe succeeds with no output at all, provisioning returns
    [None] and has done nothing but the probe: no error, no server, no
    client. *)
Theorem provisioning_with_silent_mongod W port db_alias preserved st err :
  run_command W (trace st) "mongod --version" = inl (0%Z, EmptyString, err) ->
  _register_test_connection W port db_alias preserved st
  = (Ok HNone, add_event (EvExec "mongod --version") st).
Proof.
  intros H. unfold _register_test_connection, _sys_exec, bind at 1, try_catch.
  rewrite bind_bind, bind_call, H. reflexivity.
Qed.

Lemma provisioning_with_silent_mongod_witness :
  let W := {| current_app := Some [];
              mongoengine_VERSION_lt_0_10_6 := false;
              mongomock_importable := false;
              mongoengine_connect := mongoengine_connect sample_world;
              mongoengine_get_db := mongoengine_get_db sample_world;
              mongomock_MongoClient := mongomock_MongoClient sample_world;
              pymongo_MongoClient := pymongo_MongoClient sample_world;
              run_command := fun _ _ => inl (0%Z, EmptyString, EmptyString);
              spawn := spawn sample_world;
              tempfile_mkdtemp := tempfile_mkdtemp sample_world;
              tempfile_gettempdir := "/tmp";
              os_path_exists := os_path_exists sample_world;
              os_remove := os_remove sample_world |} in
  _register_test_connection W (VInt 27017) (VStr "a") (VBool false) initial_state
  = (Ok HNone, add_event (EvExec "mongod --version") initial_state).
Proof.
  intros W.
  apply (provisioning_with_silent_mongod W (VInt 27017) (VStr "a") (VBool false)
           initial_state EmptyString).
  reflexivity.
Defined.




(* ================================================================== *)
(** * Further properties: what is called outside the module *)
(* ================================================================== *)

Lemma emits_start ok st : emits ok (trace st) st.
Proof. exists []. split; [reflexivity | constructor]. Qed.

Lemma emits_add_event (ok : event -> Prop) tr0 e st :
  ok e -> emits ok tr0 st -> emits ok tr0 (add_event e st).
Proof.
  intros He (evs & Htr & Hok). exists (e :: evs). split.
  - cbn [trace add_event app]. now rewrite Htr.
  - now constructor.
Qed.

Lemma preserves_emits_log (ok : event -> Prop) tr0 e :
  ok e -> preserves (emits ok tr0) (log e).
Proof. intros He st H. now apply emits_add_event. Qed.

Lemma preserves_emits_call {A} (ok : event -> Prop) tr0
    (answer : list event -> A + exn) e :
  ok e -> preserves (emits ok tr0) (call answer e).
Proof.
  intros He st H. unfold call.
  destruct (answer (trace st)); now apply emits_add_event.
Qed.

Lemma preserves_emits_modify (ok : event -> Prop) tr0 f :
  (forall st, trace (f st) = trace st) ->
  preserves (emits ok tr0) (modify f).
Proof.
  intros Hf st (evs & Htr & Hok). exists evs. split; [|assumption].
  cbn [modify snd]. now rewrite Hf.
Qed.

Ltac emit_step :=
  match goal with
  | |- preserves _ (ret _) => apply preserves_ret
  | |- preserves _ (raise _) => apply preserves_raise
  | |- preserves _ (gets _) => apply preserves_gets
  | |- preserves _ (hash _) => apply preserves_hash
  | |- preserves _ (getitem _ _) => apply preserves_getitem
  | |- preserves _ (value_startswith _ _) => apply preserves_value_startswith
  | |- preserves _ (__get_app_config _ _) => apply preserves_get_app_config
  | |- preserves _ (_validate_settings _ _ _ _) => apply preserves_validate_settings
  | |- preserves _ (log _) => apply preserves_emits_log; simpl; auto
  | |- preserves _ (call _ _) => apply preserves_emits_call; simpl; auto
  | |- preserves _ (modify _) => apply preserves_emits_modify; intros; reflexivity
  | |- preserves _ (bind _ _) => apply preserves_bind; [|intros]
  | |- preserves _ (try_catch _ _) => apply preserves_try; [|intros]
  | |- preserves _ (match ?x with _ => _ end) => destruct x
  end.

Ltac emit := repeat emit_step.




Section KeepsFiles.
Variable W : World.
Variable tr0 : list event.

Lemma keeps_wait_ready attempts port :
  preserves (emits keeps_files tr0) (wait_ready W attempts port).
Proof.
  induction attempts as [|n IH]; cbn [wait_ready]; emit. exact IH.
Qed.

Lemma keeps_register_test_connection port db_alias preserved :
  preserves (emits keeps_files tr0)
            (_register_test_connection W port db_alias preserved).
Proof.
  unfold _register_test_connection, _sys_exec. emit. apply keeps_wait_ready.
Qed.

Lemma keeps_establish alias :
  preserves (emits keeps_files tr0) (establish W alias).
Proof.
  unfold establish, connect. emit; apply keeps_register_test_connection.
Qed.

Lemma keeps_share_loop items alias connection_class conn_settings connection :
  preserves (emits keeps_files tr0)
            (share_loop W items alias connection_class conn_settings connection).
Proof.
  induction items as [|[db_alias settings] items IH]; cbn [share_loop];
    emit; exact IH.
Qed.

Lemma keeps_get_or_connect alias :
  preserves (emits keeps_files tr0) (get_or_connect W alias).
Proof.
  unfold get_or_connect, share_connections, get_db_handle. emit;
    first [apply keeps_establish | apply keeps_share_loop].
Qed.

Lemma keeps_disconnect alias preserved :
  truthy preserved = true ->
  preserves (emits keeps_files tr0) (disconnect W alias preserved).
Proof.
  intros Hpres. unfold disconnect, set_global_attributes. rewrite Hpres.
  cbn [negb andb]. emit. apply keeps_get_or_connect.
Qed.

End KeepsFiles.

(** X24: called with a true [preserved], [disconnect] removes nothing:
    among the calls it makes there is no [rmtree] and no [os.remove],
    whether it returns or raises. *)
Theorem disconnect_preserved_keeps_files W alias preserved st :
  truthy preserved = true ->
  emits keeps_files (trace st) (snd (disconnect W alias preserved st)).
Proof.
  intros Hpres. apply preserves_at; [|apply emits_start].
  now apply keeps_disconnect.
Qed.

Lemma disconnect_preserved_keeps_files_witness :
  emits keeps_files (trace preserving_state)
        (snd (disconnect sample_world default_alias (VBool true) preserving_state)).
Proof.
  apply (disconnect_preserved_keeps_files sample_world default_alias (VBool true)
           preserving_state).
  reflexivity.
Defined.

(* ================================================================== *)
(** * Further properties: creating and connecting *)
(* ================================================================== *)


Lemma create_connection_single W cfg app st d a :
  fetch_connection_settings cfg false = VDict d ->
  sget_default "alias" (VStr DEFAULT_CONNECTION_NAME) d = VAtom a ->
  create_connection W (VDict cfg) app st
  = bind (get_connection W (VAtom a) false) (fun h => ret (Single h))
         (set_connection_settings (dict_set key_eqb (atom_key a) d)
            (set_app_instance (app_or_config (VDict cfg) app) st)).
Proof.
  intros Hfetch Halias. unfold create_connection.
  rewrite Hfetch, Halias. cbn [hash]. now run_steps.
Qed.



(** X26: a configuration that resolves to the empty mapping (an empty
    configuration, or an empty [MONGODB_SETTINGS]) is not filled with
    defaults: [create_connection] registers the empty descriptor under the
    default alias and, unless that alias is connected, raises
    [KeyError('host')] before anything is called outside the module. *)
Theorem create_connection_empty_settings W cfg app st :
  fetch_connection_settings cfg false = VDict [] ->
  dict_mem key_eqb (KStr DEFAULT_CONNECTION_NAME) (_connections st) = false ->
  create_connection W (VDict cfg) app st
  = (Raise (KeyError "host"),
     set_connection_settings (dict_set key_eqb (KStr DEFAULT_CONNECTION_NAME) [])
       (set_app_instance (app_or_config (VDict cfg) app) st)).
Proof.
  intros Hfetch Hmem.
  rewrite (create_connection_single W cfg app st [] (AStr DEFAULT_CONNECTION_NAME))
    by (assumption || reflexivity).
  rewrite get_connection_no_reconnect.
  unfold get_or_connect. cbn [hash]. run_steps.
  cbn [fst snd atom_key _connections set_connection_settings set_app_instance].
  rewrite Hmem. cbn [negb]. unfold establish. run_steps.
  cbn [snd _connection_settings set_connection_settings set_app_instance].
  rewrite (dict_get_set_same key_eqb key_eqb_eq). reflexivity.
Qed.

Lemma create_connection_empty_settings_witness :
  create_connection sample_world
    (VDict [("MONGODB_SETTINGS", VDict []); ("TESTING", VBool true)]) None initial_state
  = (Raise (KeyError "host"),
     set_connection_settings (dict_set key_eqb (KStr DEFAULT_CONNECTION_NAME) [])
       (set_app_instance
          (app_or_config
             (VDict [("MONGODB_SETTINGS", VDict []); ("TESTING", VBool true)]) None)
          initial_state)).
Proof.
  apply (create_connection_empty_settings sample_world
           [("MONGODB_SETTINGS", VDict []); ("TESTING", VBool true)] None
           initial_state); reflexivity.
Defined.





(** X28: in every state the module can reach, a registered descriptor that
    has an ["alias"] entry is registered under that very alias. *)
Theorem registered_descriptor_names_its_alias W st k d v :
  reachable W st ->
  dict_get key_eqb k (_connection_settings st) = Some d ->
  sget "alias" d = Some v ->
  hash_key v = Some k.
Proof.
  intros Hreach. apply reachable_registry_invariant in Hreach.
  destruct Hreach as [_ Hs]. apply Hs.
Qed.

Lemma registered_descriptor_names_its_alias_witness :
  hash_key (VStr "b") = Some (KStr "b").
Proof.
  apply (registered_descriptor_names_its_alias sample_world
           (run sample_world (CreateConnection two_aliases_config None) initial_state)
           (KStr "b") descriptor_b (VStr "b")).
  - apply reachable_run, reachable_initial.
  - reflexivity.
  - reflexivity.
Defined.



